(** * Verification of the todo-ai-app frontend (task synchronisation engine)

    Shallow embedding of the TypeScript frontend:
    - [src/unnamed/part_006] (types/task.ts): the Task and TaskCreate shapes;
    - [src/unnamed/part_002], [part_004] (TaskList.tsx): the display ordering;
    - [src/unnamed/part_001] and [src/frontend/src/services/api.ts]: the gateway;
    - [src/frontend/src/App.tsx]: the session state and intent handlers;
    - [src/unnamed/part_005] (AddTaskForm.tsx) and
      [src/frontend/src/components/TaskItem.tsx]: form submission and date display. *)

From Stdlib Require Import ZArith List Bool Lia String Ascii.
From Stdlib Require Import Sorting.Sorted Sorting.Permutation.
Import ListNotations.
Open Scope Z_scope.

(** ** JavaScript strings

    A JS string is a sequence of UTF-16 code units. *)
Definition jsstr := list N.

Definition js (s : string) : jsstr := map N_of_ascii (list_ascii_of_string s).

Definition jsstr_eqb (a b : jsstr) : bool := if list_eq_dec N.eq_dec a b then true else false.

(** JS truthiness of an optional string field ([undefined], [null] and [''] are falsy),
    i.e. [x || d]. *)
Definition or_str (x : option jsstr) (d : jsstr) : jsstr :=
  match x with
  | Some [] | None => d
  | Some s => s
  end.

(** ** Data model ([types/task.ts]) *)

(** [created_at] is kept as the time value [new Date(created_at).getTime()] that the
    ordering compares; the server always sets it to an ISO-8601 instant, so it is a
    number (never NaN). *)
Record Task := mkTask {
  id : Z;
  title : jsstr;
  description : option jsstr;
  completed : bool;
  due_date : option jsstr;
  priority : option jsstr;
  created_at : Z;
  updated_at : Z
}.

Record TaskCreate := mkTaskCreate {
  tc_title : jsstr;
  tc_description : option jsstr;
  tc_due_date : option jsstr;
  tc_priority : option jsstr
}.

Record TaskUpdate := mkTaskUpdate {
  tu_title : option jsstr;
  tu_description : option jsstr;
  tu_completed : option bool;
  tu_due_date : option jsstr;
  tu_priority : option jsstr
}.

(** A JS object: an allocation reference (its identity) and its contents.
    Task objects are never mutated in place by the frontend. *)
Record obj := mkObj {
  oref : N;
  oval : Task
}.

(** ** Display ordering ([TaskList.tsx], [sortedTasks]) *)
Module TaskList.

(** The comparator passed to [Array.prototype.sort]. *)
Definition compare (a b : obj) : Z :=
  if negb (Bool.eqb (completed (oval a)) (completed (oval b)))
  then (if completed (oval a) then 1 else -1)
  else created_at (oval b) - created_at (oval a).

(** [Array.prototype.sort] is stable (ES2019) and, for a consistent comparator,
    returns the unique stable sorted permutation; a stable insertion sort
    computes it. *)
Fixpoint insert (x : obj) (l : list obj) : list obj :=
  match l with
  | [] => [x]
  | y :: r => if compare x y <? 0 then x :: y :: r else y :: insert x r
  end.

Definition sort (l : list obj) : list obj :=
  fold_left (fun acc x => insert x acc) l [].

(** [const sortedTasks = [...tasks].sort(...)] *)
Definition sortedTasks (tasks : list obj) : list obj := sort tasks.

End TaskList.

(** ** [String.prototype.trim]

    Strips leading and trailing WhiteSpace and LineTerminator code units
    (ECMA-262: TAB, VT, FF, SP, NBSP, ZWNBSP, the Zs category, LF, CR, LS, PS). *)
Definition is_js_ws (c : N) : bool :=
  existsb (N.eqb c) [9; 10; 11; 12; 13; 32; 160; 5760; 8232; 8233; 8239; 8287; 12288; 65279]%N
  || ((8192 <=? c)%N && (c <=? 8202)%N).

Fixpoint trim_start (s : jsstr) : jsstr :=
  match s with
  | [] => []
  | c :: r => if is_js_ws c then trim_start r else s
  end.

Definition trim (s : jsstr) : jsstr := rev (trim_start (rev (trim_start s))).

(** ** [Date]

    A time value is [Some ms] (milliseconds since the epoch, UTC) or [None] for NaN.
    The host's local zone has a fixed offset [tz] in minutes, with the sign of
    [Date.prototype.getTimezoneOffset] (UTC minus local time: 300 for UTC-5). *)
Definition time_value := option Z.

Definition ms_per_day : Z := 86400000.

(** [MakeDay] for a proleptic Gregorian date: days since 1970-01-01. *)
Definition days_from_civil (y m d : Z) : Z :=
  let y' := if m <=? 2 then y - 1 else y in
  let era := y' / 400 in
  let yoe := y' - era * 400 in
  let mp := if m >? 2 then m - 3 else m + 9 in
  let doy := (153 * mp + 2) / 5 + d - 1 in
  let doe := yoe * 365 + yoe / 4 - yoe / 100 + doy in
  era * 146097 + doe - 719468.

(** Inverse of [days_from_civil]: (year, month, day). *)
Definition civil_from_days (z0 : Z) : Z * Z * Z :=
  let z := z0 + 719468 in
  let era := z / 146097 in
  let doe := z - era * 146097 in
  let yoe := (doe - doe / 1460 + doe / 36524 - doe / 146096) / 365 in
  let y := yoe + era * 400 in
  let doy := doe - (365 * yoe + yoe / 4 - yoe / 100) in
  let mp := (5 * doy + 2) / 153 in
  let d := doy - (153 * mp + 2) / 5 + 1 in
  let m := if mp <? 10 then mp + 3 else mp - 9 in
  (if m <=? 2 then y + 1 else y, m, d).

Definition is_leap (y : Z) : bool :=
  (Z.modulo y 4 =? 0) && (negb (Z.modulo y 100 =? 0) || (Z.modulo y 400 =? 0)).

Definition days_in_month (y m : Z) : Z :=
  if m =? 2 then (if is_leap y then 29 else 28)
  else if (m =? 4) || (m =? 6) || (m =? 9) || (m =? 11) then 30 else 31.

(** [TimeClip] *)
Definition time_clip (t : Z) : time_value :=
  if Z.abs t <=? 8640000000000000 then Some t else None.

Definition is_digit (c : N) : bool := (48 <=? c)%N && (c <=? 57)%N.

Definition digit_val (c : N) : Z := Z.of_N c - 48.

(** Exactly [n] decimal digits. *)
Fixpoint digits (n : nat) (acc : Z) (s : jsstr) : option (Z * jsstr) :=
  match n with
  | O => Some (acc, s)
  | S k =>
      match s with
      | c :: r => if is_digit c then digits k (acc * 10 + digit_val c) r else None
      | [] => None
      end
  end.

(** One or more digits of a fraction of a second, read as milliseconds (truncated). *)
Fixpoint frac_ms (pos : Z) (acc : Z) (s : jsstr) : Z * jsstr :=
  match s with
  | c :: r =>
      if is_digit c then frac_ms (pos / 10) (acc + digit_val c * pos) r else (acc, s)
  | [] => (acc, s)
  end.

(** Optional [-NN] component (month or day), defaulting to 1. *)
Definition opt_component (s : jsstr) : option (Z * jsstr) :=
  match s with
  | 45%N :: r => digits 2 0 r
  | _ => Some (1, s)
  end.

(** Optional [:ss[.fff]]. *)
Definition opt_seconds (s : jsstr) : option (Z * Z * jsstr) :=
  match s with
  | 58%N :: r =>
      match digits 2 0 r with
      | Some (sec, 46%N :: r') =>
          if existsb is_digit (firstn 1 r') then let '(ms, r'') := frac_ms 100 0 r' in Some (sec, ms, r'')
          else None
      | Some (sec, r') => Some (sec, 0, r')
      | None => None
      end
  | _ => Some (0, 0, s)
  end.

(** Zone designator: [Z], [+HH:mm], [-HH:mm]; [Some None] when absent. *)
Definition opt_zone (s : jsstr) : option (option Z * jsstr) :=
  match s with
  | 90%N :: r => Some (Some 0, r)
  | sg :: r =>
      if (sg =? 43)%N || (sg =? 45)%N then
        match digits 2 0 r with
        | Some (hh, 58%N :: r') =>
            match digits 2 0 r' with
            | Some (mm, r'') =>
                let off := hh * 60 + mm in
                Some (Some (if (sg =? 43)%N then off else - off), r'')
            | None => None
            end
        | _ => None
        end
      else Some (None, s)
  | [] => Some (None, s)
  end.

(** [Date.parse] on the Date Time String Format of ECMA-262 (21.4.1.32) with a
    four-digit year: date-only forms are UTC, date-time forms without an offset
    are local time. Strings outside the format give NaN (the implementation's
    fallback heuristics are not modelled). *)
Definition date_parse (tz : Z) (s : jsstr) : time_value :=
  match digits 4 0 s with
  | None => None
  | Some (y, r1) =>
  match opt_component r1 with
  | None => None
  | Some (mo, r2) =>
  match (match r1 with 45%N :: _ => opt_component r2 | _ => Some (1, r2) end) with
  | None => None
  | Some (d, r3) =>
  if negb ((1 <=? mo) && (mo <=? 12) && (1 <=? d) && (d <=? days_in_month y mo)) then None
  else
  let day_ms := days_from_civil y mo d * ms_per_day in
  match r3 with
  | [] => time_clip day_ms
  | 84%N :: r4 =>
      match digits 2 0 r4 with
      | Some (hh, 58%N :: r5) =>
          match digits 2 0 r5 with
          | None => None
          | Some (mi, r6) =>
          match opt_seconds r6 with
          | None => None
          | Some (sec, ms, r7) =>
          match opt_zone r7 with
          | Some (zone, []) =>
              if negb ((hh <=? 24) && (mi <=? 59) && (sec <=? 59)
                       && (negb (hh =? 24) || ((mi =? 0) && (sec =? 0) && (ms =? 0))))
              then None
              else
              let local := day_ms + ((hh * 60 + mi) * 60 + sec) * 1000 + ms in
              match zone with
              | None => time_clip (local + tz * 60000)
              | Some off => time_clip (local - off * 60000)
              end
          | _ => None
          end
          end
          end
      | _ => None
      end
  | _ => None
  end
  end
  end
  end.

(** Zero-padded decimal rendering of a non-negative number. *)
Fixpoint pad (n : nat) (v : Z) : jsstr :=
  match n with
  | O => []
  | S k => pad k (v / 10) ++ [Z.to_N (Z.modulo v 10 + 48)]
  end.

(** [Date.prototype.toISOString]: [None] when it throws a RangeError (NaN). *)
Definition to_iso_string (t : time_value) : option jsstr :=
  match t with
  | None => None
  | Some ms =>
      let days := ms / ms_per_day in
      let in_day := Z.modulo ms ms_per_day in
      let '(y, mo, d) := civil_from_days days in
      let year :=
        if (0 <=? y) && (y <=? 9999) then pad 4 y
        else (if y <? 0 then js "-" else js "+") ++ pad 6 (Z.abs y) in
      Some (year ++ js "-" ++ pad 2 mo ++ js "-" ++ pad 2 d ++ js "T"
            ++ pad 2 (in_day / 3600000) ++ js ":" ++ pad 2 (Z.modulo (in_day / 60000) 60)
            ++ js ":" ++ pad 2 (Z.modulo (in_day / 1000) 60) ++ js "."
            ++ pad 3 (Z.modulo in_day 1000) ++ js "Z")
  end.

(** The regular expression [/Z|[+-]\d{2}(:?\d{2})?$/] and its [test] method. *)
Definition is_sign (c : N) : bool := (c =? 43)%N || (c =? 45)%N.

Definition offset_tail (l : jsstr) : bool :=
  match l with
  | [sg; d1; d2] => is_sign sg && is_digit d1 && is_digit d2
  | [sg; d1; d2; d3; d4] => is_sign sg && is_digit d1 && is_digit d2 && is_digit d3 && is_digit d4
  | [sg; d1; d2; c; d3; d4] =>
      is_sign sg && is_digit d1 && is_digit d2 && (c =? 58)%N && is_digit d3 && is_digit d4
  | _ => false
  end.

Fixpoint some_offset_tail (l : jsstr) : bool :=
  offset_tail l || match l with [] => false | _ :: r => some_offset_tail r end.

Definition zone_regex_test (s : jsstr) : bool :=
  existsb (N.eqb 90) s || some_offset_tail s.

(** ** Remote Task Gateway *)

Inductive ApiError := NetworkError | RemoteError (status : Z).

(** Settlement of a promise. *)
Inductive result (A : Type) := Resolved (a : A) | Rejected (e : ApiError).
Arguments Resolved {A} a.
Arguments Rejected {A} e.

(** What the transport delivers: a response with an HTTP status and a body, or a
    network failure (no response). *)
Inductive transport (A : Type) := TResponse (status : Z) (data : A) | TNetworkFailure.
Arguments TResponse {A} status data.
Arguments TNetworkFailure {A}.

(** An axios request with the default [validateStatus] (2xx) and the response
    interceptor, which logs and re-rejects. *)
Definition axios {A} (t : transport A) : result A :=
  match t with
  | TResponse st d =>
      if (200 <=? st) && (st <? 300) then Resolved d else Rejected (RemoteError st)
  | TNetworkFailure => Rejected NetworkError
  end.

(** [src/unnamed/part_001]: the service imported by [App.tsx]. *)
Module Api.

Record HealthStatus := mkHealth { status : jsstr; llm_service : jsstr }.

Definition getTasks (t : transport (list Task)) : result (list Task) := axios t.
Definition createTask (t : transport Task) : result Task := axios t.
Definition createTaskFromNaturalLanguage (t : transport Task) : result Task := axios t.
Definition updateTask (t : transport Task) : result Task := axios t.
Definition deleteTask (t : transport unit) : result unit := axios t.

(** [try { ... return response.data } catch { return {status:'error', llm_service:'unavailable'} }] *)
Definition checkHealth (t : transport HealthStatus) : result HealthStatus :=
  match axios t with
  | Resolved d => Resolved d
  | Rejected _ => Resolved (mkHealth (js "error") (js "unavailable"))
  end.

End Api.

(** [src/frontend/src/services/api.ts]: the other version of the service. *)
Module ApiV1.

Record HealthStatus := mkHealth { status : jsstr; llm_available : bool }.

Definition checkHealth (t : transport HealthStatus) : result HealthStatus :=
  match axios t with
  | Resolved d => Resolved d
  | Rejected _ => Resolved (mkHealth (js "error") false)
  end.

End ApiV1.

(** ** [AddTaskForm] ([src/unnamed/part_005]) *)
Module Form.

(** The form's [task] state: every field holds a string. *)
Record FormTask := mkForm {
  ftitle : jsstr;
  fdescription : jsstr;
  fdue_date : jsstr;
  fpriority : jsstr
}.

(** [useState<TaskCreate>({title:'', description:'', due_date:'', priority:'medium'})] *)
Definition form_init : FormTask := mkForm [] [] [] (js "medium").

(** [formatForInput]: [None] is [undefined]/[null]. *)
Definition formatForInput (tz : Z) (dateString : option jsstr) : jsstr :=
  match dateString with
  | None | Some [] => []
  | Some s =>
      let utcDateString := if zone_regex_test s then s else s ++ js "Z" in
      match date_parse tz utcDateString with
      | None => []
      | Some t =>
          let tzOffset := tz * 60000 in
          match to_iso_string (time_clip (t - tzOffset)) with
          | None => []
          | Some iso => firstn 16 iso
          end
      end
  end.

(** The edit-mode effect: [setTask({...})] from [initialData]. *)
Definition fill (tz : Z) (initialData : Task) : FormTask :=
  mkForm (or_str (Some (title initialData)) [])
         (or_str (description initialData) [])
         (formatForInput tz (due_date initialData))
         (or_str (priority initialData) (js "medium")).

(** The three [<option>]s of the priority [<select>]. *)
Inductive PriorityOption := OLow | OMedium | OHigh.

Definition option_value (o : PriorityOption) : jsstr :=
  match o with OLow => js "low" | OMedium => js "medium" | OHigh => js "high" end.

Inductive FormResult :=
| FAlert                      (** validation [alert], no [onSubmit] *)
| FThrow                      (** [toISOString] threw a RangeError *)
| FSubmitted (d : TaskCreate). (** [onSubmit(d)] *)

(** [handleSubmit]: the result and the form state afterwards. *)
Definition handleSubmit (tz : Z) (isEditMode : bool) (task : FormTask) : FormResult * FormTask :=
  if jsstr_eqb (trim (ftitle task)) [] then (FAlert, task)
  else
    let dueDateUTC :=
      match fdue_date task with
      | [] => Some None
      | s => option_map Some (to_iso_string (date_parse tz s))
      end in
    match dueDateUTC with
    | None => (FThrow, task)
    | Some due =>
        let d := trim (fdescription task) in
        (FSubmitted (mkTaskCreate (trim (ftitle task))
                                  (match d with [] => None | _ => Some d end)
                                  due
                                  (match fpriority task with [] => None | p => Some p end)),
         if isEditMode then task else form_init)
    end.

Inductive FormEvent :=
| FEffect (initialData : option Task)
| FChangeTitle (v : jsstr)
| FChangeDescription (v : jsstr)
| FChangeDueDate (v : jsstr)
| FChangePriority (o : PriorityOption)
| FSubmit (isEditMode : bool).

(** [handleChange] sets the field named by the element; the effect refills in edit mode. *)
Definition form_step (tz : Z) (f : FormTask) (e : FormEvent) : FormTask :=
  match e with
  | FEffect (Some t) => fill tz t
  | FEffect None => f
  | FChangeTitle v => mkForm v (fdescription f) (fdue_date f) (fpriority f)
  | FChangeDescription v => mkForm (ftitle f) v (fdue_date f) (fpriority f)
  | FChangeDueDate v => mkForm (ftitle f) (fdescription f) v (fpriority f)
  | FChangePriority o => mkForm (ftitle f) (fdescription f) (fdue_date f) (option_value o)
  | FSubmit ed => snd (handleSubmit tz ed f)
  end.

Definition form_run (tz : Z) (f : FormTask) (evs : list FormEvent) : FormTask :=
  fold_left (form_step tz) evs f.

End Form.

(** ** [TaskItem.formatDate] ([src/frontend/src/components/TaskItem.tsx])

    [toLocaleString] renders the local wall-clock time of the instant in an
    implementation-defined layout; the model keeps that wall-clock time value. *)
Module TaskItem.

Inductive Rendered := RNull | RInvalidDate | RLocal (wallclock : Z).

Definition formatDate (tz : Z) (dateString : option jsstr) : Rendered :=
  match dateString with
  | None | Some [] => RNull
  | Some s =>
      match date_parse tz s with
      | None => RInvalidDate
      | Some t => RLocal (t - tz * 60000)
      end
  end.

End TaskItem.

(** ** Task Synchronisation Engine ([src/frontend/src/App.tsx]) *)
Module App.

Record Session := mkSession {
  tasks : list obj;
  isLoading : bool;
  error : option jsstr;
  editingTask : option obj;
  isProcessingNL : bool;
  showAddForm : bool;
  isLLMAvailable : bool;
  next_ref : N   (** the next fresh object reference *)
}.

(** The [useState] initial values. *)
Definition init : Session := mkSession [] true None None false false true 0.

Definition setTasks (s : Session) v := mkSession v (isLoading s) (error s) (editingTask s)
  (isProcessingNL s) (showAddForm s) (isLLMAvailable s) (next_ref s).
Definition setIsLoading (s : Session) v := mkSession (tasks s) v (error s) (editingTask s)
  (isProcessingNL s) (showAddForm s) (isLLMAvailable s) (next_ref s).
Definition setError (s : Session) v := mkSession (tasks s) (isLoading s) v (editingTask s)
  (isProcessingNL s) (showAddForm s) (isLLMAvailable s) (next_ref s).
Definition setEditingTask (s : Session) v := mkSession (tasks s) (isLoading s) (error s) v
  (isProcessingNL s) (showAddForm s) (isLLMAvailable s) (next_ref s).
Definition setIsProcessingNL (s : Session) v := mkSession (tasks s) (isLoading s) (error s)
  (editingTask s) v (showAddForm s) (isLLMAvailable s) (next_ref s).
Definition setShowAddForm (s : Session) v := mkSession (tasks s) (isLoading s) (error s)
  (editingTask s) (isProcessingNL s) v (isLLMAvailable s) (next_ref s).
Definition setIsLLMAvailable (s : Session) v := mkSession (tasks s) (isLoading s) (error s)
  (editingTask s) (isProcessingNL s) (showAddForm s) v (next_ref s).
Definition setNextRef (s : Session) v := mkSession (tasks s) (isLoading s) (error s)
  (editingTask s) (isProcessingNL s) (showAddForm s) (isLLMAvailable s) v.

(** Decoding a response body allocates fresh objects. *)
Definition alloc (s : Session) (t : Task) : obj * Session :=
  (mkObj (next_ref s) t, setNextRef s (N.succ (next_ref s))).

Fixpoint alloc_list (s : Session) (ts : list Task) : list obj * Session :=
  match ts with
  | [] => ([], s)
  | t :: r => let '(o, s1) := alloc s t in let '(os, s2) := alloc_list s1 r in (o :: os, s2)
  end.

Definition msg_load := js "Failed to load tasks. Please check your connection and try again.".
Definition msg_create := js "Failed to create task. Please try again.".
Definition msg_nl :=
  js "The AI failed to understand. Please try rephrasing or add the task manually.".
Definition msg_update := js "Failed to update task. Please try again.".
Definition msg_delete := js "Failed to delete task. Please try again.".

(** Remote requests issued by the handlers. *)
Inductive Request :=
| RGetTasks
| RCreate (d : TaskCreate)
| RParse (text : jsstr)
| RUpdate (tid : Z) (p : TaskUpdate)
| RDelete (tid : Z)
| RHealth.

(** A handler suspended at its [await], with what its closure captured:
    [snapshot] is the [tasks] of the render that created the handler. *)
Inductive Pending :=
| PLoad
| PHealth
| PCreate
| PNL
| PToggle (tid : Z) (snapshot : list obj)
| PDelete (tid : Z) (snapshot : list obj)
| PUpdate (editing : obj) (snapshot : list obj).

(** [tasks.map(t => (t.id === tid ? updatedTask : t))] *)
Definition replace_id (tid : Z) (u : obj) (l : list obj) : list obj :=
  map (fun t => if id (oval t) =? tid then u else t) l.

(** --- synchronous parts, up to the [await] --- *)

Definition loadTasks (s : Session) : Session * option (Request * Pending) :=
  (setError (setIsLoading s true) None, Some (RGetTasks, PLoad)).

Definition checkHealth (s : Session) : Session * option (Request * Pending) :=
  (s, Some (RHealth, PHealth)).

Definition handleCreateTask (s : Session) (d : TaskCreate) :=
  (setError s None, Some (RCreate d, PCreate)).

Definition handleNaturalLanguageCreate (s : Session) (text : jsstr) :=
  (setError (setIsProcessingNL s true) None, Some (RParse text, PNL)).

Definition handleToggleTask (s : Session) (tid : Z) :=
  match find (fun t => id (oval t) =? tid) (tasks s) with
  | None => (s, None)
  | Some t =>
      (setError s None,
       Some (RUpdate tid (mkTaskUpdate None None (Some (negb (completed (oval t)))) None None),
             PToggle tid (tasks s)))
  end.

(** [confirmed] is the answer of [window.confirm]. *)
Definition handleDeleteTask (s : Session) (tid : Z) (confirmed : bool) :=
  if negb confirmed then (s, None)
  else (setError s None, Some (RDelete tid, PDelete tid (tasks s))).

Definition handleEditTask (s : Session) (t : obj) : Session :=
  setShowAddForm (setEditingTask s (Some t)) true.

Definition handleUpdateTask (s : Session) (p : TaskUpdate) :=
  match editingTask s with
  | None => (s, None)
  | Some e => (setError s None, Some (RUpdate (id (oval e)) p, PUpdate e (tasks s)))
  end.

Definition handleCancelEdit (s : Session) : Session :=
  setShowAddForm (setEditingTask s None) false.

(** --- continuations, after the [await] settles --- *)

Definition resume_load (s : Session) (r : result (list Task)) : Session :=
  match r with
  | Resolved ts => let '(os, s1) := alloc_list s ts in setIsLoading (setTasks s1 os) false
  | Rejected _ => setIsLoading (setError s (Some msg_load)) false
  end.

Definition resume_health (s : Session) (r : result Api.HealthStatus) : Session :=
  match r with
  | Resolved h => setIsLLMAvailable s (jsstr_eqb (Api.llm_service h) (js "available"))
  | Rejected _ => setIsLLMAvailable s false
  end.

(** [setTasks(prevTasks => [newTask, ...prevTasks])] *)
Definition resume_create (s : Session) (r : result Task) : Session :=
  match r with
  | Resolved t => let '(o, s1) := alloc s t in setShowAddForm (setTasks s1 (o :: tasks s1)) false
  | Rejected _ => setError s (Some msg_create)
  end.

Definition resume_nl (s : Session) (r : result Task) : Session :=
  let s' :=
    match r with
    | Resolved t => let '(o, s1) := alloc s t in setTasks s1 (o :: tasks s1)
    | Rejected _ => setError s (Some msg_nl)
    end in
  setIsProcessingNL s' false.   (** [finally] *)

(** [setTasks(tasks.map(...))] on the captured [tasks]. *)
Definition resume_toggle (tid : Z) (snapshot : list obj) (s : Session) (r : result Task) :=
  match r with
  | Resolved t => let '(o, s1) := alloc s t in setTasks s1 (replace_id tid o snapshot)
  | Rejected _ => setError s (Some msg_update)
  end.

Definition resume_delete (tid : Z) (snapshot : list obj) (s : Session) (r : result unit) :=
  match r with
  | Resolved _ => setTasks s (filter (fun t => negb (id (oval t) =? tid)) snapshot)
  | Rejected _ => setError s (Some msg_delete)
  end.

Definition resume_update (e : obj) (snapshot : list obj) (s : Session) (r : result Task) :=
  match r with
  | Resolved t =>
      let '(o, s1) := alloc s t in
      setShowAddForm (setEditingTask (setTasks s1 (replace_id (id (oval e)) o snapshot)) None) false
  | Rejected _ => setError s (Some msg_update)
  end.

(** --- the session as a step machine --- *)

(** What the transport delivers for a suspended request. *)
Inductive Reply :=
| YTasks (t : transport (list Task))
| YTask (t : transport Task)
| YVoid (t : transport unit)
| YHealth (t : transport Api.HealthStatus).

Record World := mkWorld {
  sess : Session;
  pending : list Pending;  (** suspended handlers, in issue order *)
  sent : list Request      (** every request put on the wire, in order *)
}.

Definition world_init : World := mkWorld init [] [].

Inductive Event :=
| EMount                             (** the [useEffect] on mount *)
| ESubmitForm (f : Form.FormTask)    (** submit of the add/edit form *)
| ESubmitNL (text : jsstr)           (** submit of the natural-language input *)
| EToggle (tid : Z)                  (** checkbox of a listed task *)
| EDelete (tid : Z) (confirmed : bool)
| EEdit (r : N)                      (** edit button of the listed object [r] *)
| ECancelEdit
| EAddClick                          (** "+ Add a Task Manually" *)
| EDismissError
| EResolve (k : nat) (y : Reply).    (** the [k]-th suspended request settles *)

Definition issue (w : World) (so : Session * option (Request * Pending)) : World :=
  match so with
  | (s, None) => mkWorld s (pending w) (sent w)
  | (s, Some (rq, p)) => mkWorld s (pending w ++ [p]) (sent w ++ [rq])
  end.

Fixpoint remove_nth {A} (k : nat) (l : list A) : list A :=
  match k, l with
  | _, [] => []
  | O, _ :: r => r
  | S k', x :: r => x :: remove_nth k' r
  end.

Definition resume (s : Session) (p : Pending) (y : Reply) : option Session :=
  match p, y with
  | PLoad, YTasks t => Some (resume_load s (Api.getTasks t))
  | PHealth, YHealth t => Some (resume_health s (Api.checkHealth t))
  | PCreate, YTask t => Some (resume_create s (Api.createTask t))
  | PNL, YTask t => Some (resume_nl s (Api.createTaskFromNaturalLanguage t))
  | PToggle tid snap, YTask t => Some (resume_toggle tid snap s (Api.updateTask t))
  | PUpdate e snap, YTask t => Some (resume_update e snap s (Api.updateTask t))
  | PDelete tid snap, YVoid t => Some (resume_delete tid snap s (Api.deleteTask t))
  | _, _ => None
  end.

(** [onSubmit={editingTask ? handleUpdateTask : handleCreateTask}] *)
Definition create_as_update (d : TaskCreate) : TaskUpdate :=
  mkTaskUpdate (Some (tc_title d)) (tc_description d) None (tc_due_date d) (tc_priority d).

Definition step (tz : Z) (w : World) (e : Event) : World :=
  let s := sess w in
  match e with
  | EMount => issue (issue w (loadTasks s)) (checkHealth (sess (issue w (loadTasks s))))
  | ESubmitForm f =>
      let isEdit := match editingTask s with Some _ => true | None => false end in
      match fst (Form.handleSubmit tz isEdit f) with
      | Form.FSubmitted d =>
          issue w (if isEdit then handleUpdateTask s (create_as_update d)
                   else handleCreateTask s d)
      | _ => w
      end
  | ESubmitNL text =>
      (* NaturalLanguageInput: [if (text.trim() && !isLoading) onSubmit(text.trim())] *)
      if negb (jsstr_eqb (trim text) []) && negb (isProcessingNL s)
      then issue w (handleNaturalLanguageCreate s (trim text))
      else w
  | EToggle tid => issue w (handleToggleTask s tid)
  | EDelete tid c => issue w (handleDeleteTask s tid c)
  | EEdit r =>
      match find (fun t => N.eqb (oref t) r) (tasks s) with
      | Some t => mkWorld (handleEditTask s t) (pending w) (sent w)
      | None => w
      end
  | ECancelEdit => mkWorld (handleCancelEdit s) (pending w) (sent w)
  | EAddClick => mkWorld (setShowAddForm (setEditingTask s None) true) (pending w) (sent w)
  | EDismissError => mkWorld (setError s None) (pending w) (sent w)
  | EResolve k y =>
      match nth_error (pending w) k with
      | None => w
      | Some p =>
          match resume s p y with
          | Some s' => mkWorld s' (remove_nth k (pending w)) (sent w)
          | None => w
          end
      end
  end.

Definition run (tz : Z) (w : World) (evs : list Event) : World := fold_left (step tz) evs w.

Definition is_health (r : Request) : bool := match r with RHealth => true | _ => false end.

Definition health_count (w : World) : nat := List.length (filter is_health (sent w)).

Definition is_mount (e : Event) : bool := match e with EMount => true | _ => false end.

End App.

(** ** Predicates and sample data used in the statements *)
Module Samples.
Import App.

Definition rejected {A} (r : result A) : bool :=
  match r with Rejected _ => true | Resolved _ => false end.

(** The transport outcome of a reply makes the awaited call reject. *)
Definition reply_fails (y : Reply) : bool :=
  match y with
  | YTasks t => rejected (axios t)
  | YTask t => rejected (axios t)
  | YVoid t => rejected (axios t)
  | YHealth t => rejected (axios t)
  end.

(** Intents of the create / update (toggle, edit-save) / delete classes. *)
Definition crud_intent (e : Event) : bool :=
  match e with ESubmitForm _ | EToggle _ | EDelete _ _ => true | _ => false end.

Definition task (i : Z) (t : string) (c : bool) (created : Z) : Task :=
  mkTask i (js t) None c None None created created.

Definition t5 : Task := task 5 "Write report" false 1000.
Definition t5_done : Task := mkTask 5 (js "Write report") None true None None 1000 2000.
Definition t7 : Task := task 7 "Buy milk" false 1500.
Definition t_nl : Task := task 9 "Call mom" false 3000.

(** Session start followed by a successful initial load of [t5] and [t7]. *)
Definition loaded : list Event :=
  [EMount; EResolve 0 (YTasks (TResponse 200 [t5; t7]))].

(** The loaded session once the health check has also settled: nothing in flight. *)
Definition w_idle : World :=
  run 0 world_init (loaded ++ [EResolve 0 (YHealth (TResponse 200 (Api.mkHealth (js "ok") (js "available"))))]).

End Samples.

(** ** Requests in flight *)
Module Inflight.
Import App.

Definition is_pnl (p : Pending) : bool := match p with PNL => true | _ => false end.
Definition is_pload (p : Pending) : bool := match p with PLoad => true | _ => false end.

(** How many suspended handlers satisfy [f]. *)
Definition count_pending (f : Pending -> bool) (l : list Pending) : nat :=
  List.length (filter f l).

(** The settlement of a suspended request, as opposed to a UI event or the mount effect. *)
Definition settles (e : Event) : bool :=
  match e with EResolve _ _ => true | _ => false end.

(** The nl-loading flag is set exactly when one natural-language request is in flight. *)
Definition nl_inv (w : World) : Prop :=
  count_pending is_pnl (pending w) = if isProcessingNL (sess w) then 1%nat else 0%nat.

(** The loading flag is set exactly when one task load is in flight. *)
Definition load_inv (w : World) : Prop :=
  count_pending is_pload (pending w) = if isLoading (sess w) then 1%nat else 0%nat.

End Inflight.

(** * Properties *)

(** ** Display ordering *)
Module TaskListFacts.
Import TaskList.

(** [le a b]: the comparator does not put [a] after [b]. *)
Definition le (a b : obj) : Prop := compare a b <= 0.

Lemma compare_antisym (a b : obj) : compare b a = - compare a b.
Proof.
  unfold compare.
  destruct (completed (oval a)), (completed (oval b)); simpl; lia.
Qed.

Lemma le_iff (a b : obj) :
  le a b <->
  (completed (oval a) = false /\ completed (oval b) = true) \/
  (completed (oval a) = completed (oval b) /\ created_at (oval b) <= created_at (oval a)).
Proof.
  unfold le, compare.
  destruct (completed (oval a)), (completed (oval b)); simpl; split; intuition (try lia; try discriminate).
Qed.

Lemma le_trans (a b c : obj) : le a b -> le b c -> le a c.
Proof.
  rewrite !le_iff. intros [[? ?]|[? ?]] [[? ?]|[? ?]]; rewrite ?le_iff;
    first [ left; split; congruence | right; split; [congruence | lia] | congruence ].
Qed.

Lemma insert_HdRel (y x : obj) (l : list obj) :
  HdRel le y l -> le y x -> HdRel le y (insert x l).
Proof.
  intros Hh Hyx. destruct l as [|z r]; simpl.
  - constructor; assumption.
  - destruct (compare x z <? 0); constructor; [assumption|].
    inversion Hh; assumption.
Qed.

Lemma insert_sorted (x : obj) (l : list obj) : Sorted le l -> Sorted le (insert x l).
Proof.
  induction l as [|y r IH]; intros Hs; simpl.
  - repeat constructor.
  - destruct (compare x y <? 0) eqn:Hc.
    + apply Z.ltb_lt in Hc. constructor; [assumption|]. constructor. unfold le; lia.
    + apply Z.ltb_ge in Hc. inversion Hs; subst. constructor.
      * apply IH; assumption.
      * apply insert_HdRel; [assumption|]. unfold le. rewrite compare_antisym. lia.
Qed.

Lemma sort_sorted_acc (l acc : list obj) :
  Sorted le acc -> Sorted le (fold_left (fun acc x => insert x acc) l acc).
Proof.
  revert acc. induction l as [|x r IH]; intros acc Hs; simpl; [assumption|].
  apply IH, insert_sorted, Hs.
Qed.

Lemma insert_perm (x : obj) (l : list obj) : Permutation (insert x l) (x :: l).
Proof.
  induction l as [|y r IH]; simpl; [reflexivity|].
  destruct (compare x y <? 0); [reflexivity|].
  rewrite IH. apply perm_swap.
Qed.

Lemma sort_perm_acc (l acc : list obj) :
  Permutation (fold_left (fun acc x => insert x acc) l acc) (l ++ acc).
Proof.
  revert acc. induction l as [|x r IH]; intros acc; simpl; [reflexivity|].
  rewrite IH, insert_perm. apply Permutation_sym, Permutation_middle.
Qed.

Lemma StronglySorted_nth {A} (R : A -> A -> Prop) (l : list A) :
  StronglySorted R l ->
  forall i j a b, (i < j)%nat -> nth_error l i = Some a -> nth_error l j = Some b -> R a b.
Proof.
  induction 1 as [|x r Hr IH Hall]; intros i j a b Hij Hi Hj.
  - destruct i; discriminate.
  - destruct i as [|i'], j as [|j']; simpl in *; try lia.
    + injection Hi as <-. rewrite Forall_forall in Hall. apply Hall.
      eapply nth_error_In; eassumption.
    + eapply IH; [|eassumption|eassumption]. lia.
Qed.

Lemma sortedTasks_strongly_sorted (ts : list obj) : StronglySorted le (sortedTasks ts).
Proof.
  apply Sorted_StronglySorted; [exact le_trans|].
  apply sort_sorted_acc. constructor.
Qed.

(** C1: the display order is a permutation of the collection in which every
    incomplete task precedes every completed one, and within a completion group
    creation timestamps are non-increasing (newest first). *)
Theorem sortedTasks_display_order (ts : list obj) :
  Permutation (sortedTasks ts) ts /\
  forall i j a b, (i < j)%nat ->
    nth_error (sortedTasks ts) i = Some a -> nth_error (sortedTasks ts) j = Some b ->
    (completed (oval a) = true -> completed (oval b) = true) /\
    (completed (oval a) = completed (oval b) -> created_at (oval b) <= created_at (oval a)).
Proof.
  split.
  - unfold sortedTasks, sort. rewrite sort_perm_acc, app_nil_r. reflexivity.
  - intros i j a b Hij Hi Hj.
    pose proof (StronglySorted_nth le _ (sortedTasks_strongly_sorted ts) i j a b Hij Hi Hj) as H.
    apply le_iff in H. destruct H as [[Ha Hb]|[Hab Hc]].
    + split; [congruence | intros; congruence].
    + split; [congruence | intros; exact Hc].
Qed.

End TaskListFacts.

(** ** Intent handlers *)
Module AppFacts.
Import App Samples.

Lemma setError_setError (s : Session) a b : setError (setError s a) b = setError s b.
Proof. destruct s; reflexivity. Qed.

Lemma all_ws_trim_start (s : jsstr) : forallb is_js_ws s = true -> trim_start s = [].
Proof.
  induction s as [|c r IH]; simpl; [reflexivity|].
  intros H. apply andb_true_iff in H as [Hc Hr]. rewrite Hc. apply IH, Hr.
Qed.

Lemma all_ws_trim (s : jsstr) : forallb is_js_ws s = true -> trim s = [].
Proof. intros H. unfold trim. rewrite (all_ws_trim_start s H). reflexivity. Qed.

(** C2: a create, update (toggle or edit-save) or delete whose remote call
    fails leaves the task collection exactly as it was before the intent;
    the session differs from the initial one only by the error message. *)
Theorem failed_crud_intent_only_sets_error (tz : Z) (w : World) (ev : Event) (y : Reply) :
  pending w = [] ->
  crud_intent ev = true ->
  pending (step tz w ev) <> [] ->
  reply_fails y = true ->
  pending (step tz (step tz w ev) (EResolve 0 y)) = [] ->
  exists msg,
    sess (step tz (step tz w ev) (EResolve 0 y)) = setError (sess w) (Some msg) /\
    tasks (sess (step tz (step tz w ev) (EResolve 0 y))) = tasks (sess w).
Proof.
  intros Hp Hc Hissued Hf Hdone.
  destruct w as [s pw sw]; simpl in Hp; subst pw.
  destruct ev; try discriminate Hc; simpl in *.
  - (* form submit: create or edit-save *)
    unfold handleUpdateTask in *.
    destruct (editingTask s) as [e|] eqn:He; simpl in *;
      destruct (fst (Form.handleSubmit tz _ f)) eqn:Hs; simpl in *; try congruence;
      destruct y; simpl in *; try congruence.
    + unfold resume_update, Api.updateTask in *.
      destruct (axios t); try discriminate.
      eexists; split; [rewrite setError_setError; reflexivity | destruct s; reflexivity].
    + unfold resume_create, Api.createTask in *.
      destruct (axios t); try discriminate.
      eexists; split; [rewrite setError_setError; reflexivity | destruct s; reflexivity].
  - (* toggle *)
    unfold handleToggleTask in *.
    destruct (find _ (tasks s)); simpl in *; [|congruence].
    destruct y; simpl in *; try congruence.
    unfold resume_toggle, Api.updateTask in *.
    destruct (axios t); try discriminate.
    eexists; split; [rewrite setError_setError; reflexivity | destruct s; reflexivity].
  - (* delete *)
    unfold handleDeleteTask in *.
    destruct confirmed; simpl in *; [|congruence].
    destruct y; simpl in *; try congruence.
    unfold resume_delete, Api.deleteTask in *.
    destruct (axios t); try discriminate.
    eexists; split; [rewrite setError_setError; reflexivity | destruct s; reflexivity].
Qed.

(** C3: the gateway's [checkHealth] settles normally for every transport
    outcome; whenever the request fails (network failure or a non-2xx status)
    it resolves to the degraded status [error] with the language service
    reported unavailable. Both versions of the service, and the App's use of it. *)
Theorem checkHealth_never_rejects (t : transport Api.HealthStatus) (t1 : transport ApiV1.HealthStatus) :
  (exists h, Api.checkHealth t = Resolved h) /\
  (forall e, axios t = Rejected e ->
     Api.checkHealth t = Resolved (Api.mkHealth (js "error") (js "unavailable"))) /\
  (exists h, ApiV1.checkHealth t1 = Resolved h) /\
  (forall e, axios t1 = Rejected e ->
     ApiV1.checkHealth t1 = Resolved (ApiV1.mkHealth (js "error") false)) /\
  (forall s e, axios t = Rejected e -> isLLMAvailable (resume_health s (Api.checkHealth t)) = false).
Proof.
  unfold Api.checkHealth, ApiV1.checkHealth.
  split; [destruct (axios t); eexists; reflexivity|].
  split; [intros e He; rewrite He; reflexivity|].
  split; [destruct (axios t1); eexists; reflexivity|].
  split; [intros e He; rewrite He; reflexivity|].
  intros s e He. rewrite He. destruct s; reflexivity.
Qed.

(** C4: submitting the manual form with an empty or whitespace-only title
    sends no request, suspends no handler and leaves the session (in
    particular the task collection) unchanged. *)
Theorem blank_title_submit_is_noop (tz : Z) (w : World) (f : Form.FormTask) :
  forallb is_js_ws (Form.ftitle f) = true ->
  step tz w (ESubmitForm f) = w.
Proof.
  intros Hws. unfold step, Form.handleSubmit.
  rewrite (all_ws_trim _ Hws). simpl. reflexivity.
Qed.

(** C6: the natural-language intent sets nl-loading and clears the error
    before its request; when the request settles, a success prepends the
    returned task and a failure sets the AI-parsing message (distinct from the
    other intents' messages); both paths clear nl-loading. *)
Theorem nl_create_lifecycle :
  (forall s text,
     handleNaturalLanguageCreate s text
     = (setError (setIsProcessingNL s true) None, Some (RParse text, PNL))) /\
  (forall s y s', resume s PNL y = Some s' ->
     isProcessingNL s' = false /\
     exists t, y = YTask t /\
       match axios t with
       | Resolved tk => exists o, tasks s' = o :: tasks s /\ oval o = tk /\ error s' = error s
       | Rejected _ => tasks s' = tasks s /\ error s' = Some msg_nl
       end) /\
  ~ In msg_nl [msg_load; msg_create; msg_update; msg_delete].
Proof.
  split; [reflexivity|]. split.
  - intros s y s' H. destruct y; simpl in H; try discriminate.
    injection H as <-. unfold resume_nl, Api.createTaskFromNaturalLanguage.
    destruct (axios t) as [tk|e] eqn:Ht.
    + split; [destruct s; reflexivity|]. exists t. split; [reflexivity|].
      rewrite Ht. exists (mkObj (next_ref s) tk). destruct s; repeat split.
    + split; [destruct s; reflexivity|]. exists t. split; [reflexivity|].
      rewrite Ht. destruct s; split; reflexivity.
  - unfold msg_nl, msg_load, msg_create, msg_update, msg_delete, js. simpl.
    intuition discriminate.
Qed.

Lemma alloc_list_editing (s : Session) (ts : list Task) :
  editingTask (snd (alloc_list s ts)) = editingTask s.
Proof.
  revert s. induction ts as [|t r IH]; intros s; simpl; [reflexivity|].
  destruct (alloc_list (setNextRef s (N.succ (next_ref s))) r) as [os s2] eqn:E.
  simpl. specialize (IH (setNextRef s (N.succ (next_ref s)))). rewrite E in IH.
  simpl in IH. rewrite IH. destruct s; reflexivity.
Qed.

Lemma issue_editing (w : World) (so : Session * option (Request * Pending)) :
  editingTask (sess (issue w so)) = editingTask (fst so).
Proof. destruct so as [s [[rq p]|]]; reflexivity. Qed.

Lemma resume_editing (s : Session) (p : Pending) (y : Reply) (s' : Session) :
  resume s p y = Some s' -> editingTask s' = editingTask s \/ editingTask s' = None.
Proof.
  intros H. destruct p, y; simpl in H; try discriminate; injection H as <-.
  - unfold resume_load. destruct (Api.getTasks t) as [ts|e]; [|destruct s; left; reflexivity].
    destruct (alloc_list s ts) as [os s1] eqn:E. left.
    pose proof (alloc_list_editing s ts) as He. rewrite E in He. simpl in He.
    rewrite <- He. destruct s1; reflexivity.
  - unfold resume_health. destruct (Api.checkHealth t); destruct s; left; reflexivity.
  - unfold resume_create. destruct (Api.createTask t); destruct s; left; reflexivity.
  - unfold resume_nl. destruct (Api.createTaskFromNaturalLanguage t); destruct s; left; reflexivity.
  - unfold resume_toggle. destruct (Api.updateTask t); destruct s; left; reflexivity.
  - unfold resume_delete. destruct (Api.deleteTask t); destruct s; left; reflexivity.
  - unfold resume_update. destruct (Api.updateTask t); destruct s; [right|left]; reflexivity.
Qed.

(** C7 (as the code has it): the edit target is the task object captured by
    [handleEditTask] from the collection; no other step refreshes it from the
    collection: every step keeps it, clears it, or (begin-edit only) sets it to
    an object then in the collection. The edit-save request uses the captured
    object's id. *)
Theorem editing_target_is_captured_object :
  (forall tz w ev,
     editingTask (sess (step tz w ev)) = editingTask (sess w) \/
     editingTask (sess (step tz w ev)) = None \/
     (exists r o, ev = EEdit r /\ editingTask (sess (step tz w ev)) = Some o /\
                  In o (tasks (sess w)))) /\
  (forall s e p, editingTask s = Some e ->
     handleUpdateTask s p = (setError s None, Some (RUpdate (id (oval e)) p, PUpdate e (tasks s)))).
Proof.
  split.
  - intros tz [s pw sw] ev. destruct ev; simpl.
    + (* mount *) left. destruct s; reflexivity.
    + (* form *)
      destruct s as [ts ld er ed nl sh av nr]; simpl.
      destruct (fst (Form.handleSubmit tz _ f)); try (left; reflexivity).
      left. rewrite issue_editing. unfold handleUpdateTask, handleCreateTask.
      destruct ed; reflexivity.
    + destruct (negb (jsstr_eqb (trim text) []) && negb (isProcessingNL s)); [|left; reflexivity].
      left. destruct s; reflexivity.
    + left. rewrite issue_editing. unfold handleToggleTask.
      destruct (find _ (tasks s)); destruct s; reflexivity.
    + left. rewrite issue_editing. unfold handleDeleteTask.
      destruct confirmed; destruct s; reflexivity.
    + destruct (find (fun t => N.eqb (oref t) r) (tasks s)) as [o|] eqn:Hf; [|left; reflexivity].
      right; right. exists r, o. split; [reflexivity|]. split; [destruct s; reflexivity|].
      apply find_some in Hf. apply Hf.
    + right; left. destruct s; reflexivity.
    + right; left. destruct s; reflexivity.
    + left. destruct s; reflexivity.
    + destruct (nth_error pw k) as [p|]; [|left; reflexivity].
      destruct (resume s p y) as [s'|] eqn:Hr; [|left; reflexivity].
      apply resume_editing in Hr. simpl. destruct Hr; [left|right; left]; assumption.
  - intros s e p He. unfold handleUpdateTask. rewrite He. reflexivity.
Qed.

(** --- health probing --- *)

Lemma issue_health_count (w : World) (s : Session) (o : option (Request * Pending)) :
  (forall rq p, o = Some (rq, p) -> is_health rq = false) ->
  health_count (issue w (s, o)) = health_count w.
Proof.
  intros H. destruct o as [[rq p]|]; [|reflexivity].
  unfold health_count; simpl. rewrite filter_app, length_app.
  specialize (H rq p eq_refl). simpl. rewrite H. simpl. lia.
Qed.

Lemma step_health_count (tz : Z) (w : World) (ev : Event) :
  is_mount ev = false -> health_count (step tz w ev) = health_count w.
Proof.
  intros Hm. destruct w as [s pw sw]. destruct ev; try discriminate Hm; simpl.
  - destruct (fst (Form.handleSubmit tz _ f)); try reflexivity.
    unfold handleUpdateTask, handleCreateTask.
    destruct (editingTask s); apply issue_health_count;
      intros rq p E; injection E as <- <-; reflexivity.
  - destruct (_ && _); [|reflexivity].
    unfold health_count; simpl. rewrite filter_app, length_app; simpl; lia.
  - unfold handleToggleTask. destruct (find _ _); [|reflexivity].
    unfold health_count; simpl. rewrite filter_app, length_app; simpl; lia.
  - unfold handleDeleteTask. destruct confirmed; [|reflexivity].
    unfold health_count; simpl. rewrite filter_app, length_app; simpl; lia.
  - destruct (find _ _); reflexivity.
  - reflexivity.
  - reflexivity.
  - reflexivity.
  - destruct (nth_error pw k); [|reflexivity]. destruct (resume s p y); reflexivity.
Qed.

Lemma run_health_count (tz : Z) (w : World) (evs : list Event) :
  forallb (fun e => negb (is_mount e)) evs = true ->
  health_count (run tz w evs) = health_count w.
Proof.
  revert w. induction evs as [|e r IH]; intros w H; [reflexivity|].
  simpl in H. apply andb_true_iff in H as [He Hr]. apply negb_true_iff in He.
  unfold run; simpl. fold (run tz (step tz w e) r).
  rewrite IH by exact Hr. apply step_health_count, He.
Qed.

(** C8 (as the code has it): the availability flag comes from the single health
    check that the mount effect issues; no other event issues one, so a session
    issues exactly one health check however long it runs. *)
Theorem single_health_check (tz : Z) (evs : list Event) :
  forallb (fun e => negb (is_mount e)) evs = true ->
  health_count (run tz world_init (EMount :: evs)) = 1%nat.
Proof.
  intros H.
  change (run tz world_init (EMount :: evs)) with (run tz (step tz world_init EMount) evs).
  rewrite run_health_count by exact H. reflexivity.
Qed.

End AppFacts.


(** ** The add/edit form *)
Module FormFacts.
Import Form.

Lemma or_str_nonempty (x : option jsstr) (d : jsstr) : d <> [] -> or_str x d <> [].
Proof. intros Hd. destruct x as [[|c r]|]; simpl; [exact Hd | discriminate | exact Hd]. Qed.

Lemma handleSubmit_cases (tz : Z) (ed : bool) (f : FormTask) :
  (snd (handleSubmit tz ed f) = f \/ snd (handleSubmit tz ed f) = form_init) /\
  (forall d, fst (handleSubmit tz ed f) = FSubmitted d ->
     tc_priority d = match fpriority f with [] => None | p => Some p end).
Proof.
  unfold handleSubmit.
  destruct (jsstr_eqb (trim (ftitle f)) []); [split; [left; reflexivity | discriminate]|].
  destruct (match fdue_date f with [] => Some None | s => option_map Some (to_iso_string (date_parse tz s)) end);
    [|split; [left; reflexivity | discriminate]].
  split; [destruct ed; [left|right]; reflexivity|].
  intros d E. injection E as <-. reflexivity.
Qed.

Lemma form_step_priority (tz : Z) (f : FormTask) (e : FormEvent) :
  fpriority f <> [] -> fpriority (form_step tz f e) <> [].
Proof.
  intros H. destruct e as [[t|]| | | |o|ed]; simpl; try assumption.
  - apply or_str_nonempty. discriminate.
  - destruct o; discriminate.
  - destruct (proj1 (handleSubmit_cases tz ed f)) as [E|E]; rewrite E; [assumption | discriminate].
Qed.

Lemma form_run_priority (tz : Z) (evs : list FormEvent) (f : FormTask) :
  fpriority f <> [] -> fpriority (form_run tz f evs) <> [].
Proof.
  revert f. induction evs as [|e r IH]; intros f H; [exact H|].
  apply IH, form_step_priority, H.
Qed.

(** C10: the form starts with priority [medium], editing a task without a
    priority fills in [medium], and every draft the form submits, after any
    sequence of edits, fills and submits, carries a non-empty priority. *)
Theorem form_always_submits_priority :
  fpriority form_init = js "medium" /\
  (forall tz t, priority t = None -> fpriority (fill tz t) = js "medium") /\
  (forall tz evs ed d f',
     handleSubmit tz ed (form_run tz form_init evs) = (FSubmitted d, f') ->
     exists p, tc_priority d = Some p /\ p <> []).
Proof.
  split; [reflexivity|]. split.
  - intros tz t H. unfold fill. simpl. rewrite H. reflexivity.
  - intros tz evs ed d f' H.
    pose proof (form_run_priority tz evs form_init ltac:(discriminate)) as Hp.
    pose proof (proj2 (handleSubmit_cases tz ed (form_run tz form_init evs)) d) as Hd.
    rewrite H in Hd. specialize (Hd eq_refl).
    destruct (fpriority (form_run tz form_init evs)) as [|c r]; [congruence|].
    exists (c :: r). split; [exact Hd | discriminate].
Qed.

Lemma to_iso_string_utc (ms : Z) : exists pre, to_iso_string (Some ms) = Some (pre ++ [90%N]).
Proof.
  unfold to_iso_string. destruct (civil_from_days (ms / ms_per_day)) as [[y mo] dd].
  eexists. rewrite !app_assoc. reflexivity.
Qed.

(** The due date of a submitted draft is absent or a [toISOString] result,
    which always ends in the UTC designator [Z]. *)
Lemma submitted_due_date_is_utc (tz : Z) (ed : bool) (f : FormTask) (d : TaskCreate) (f' : FormTask) :
  handleSubmit tz ed f = (FSubmitted d, f') ->
  tc_due_date d = None \/ exists pre, tc_due_date d = Some (pre ++ [90%N]).
Proof.
  intros E. unfold handleSubmit in E.
  destruct (jsstr_eqb (trim (ftitle f)) []); [discriminate|].
  destruct (fdue_date f) as [|c r].
  - injection E as <- _. left. reflexivity.
  - destruct (date_parse tz (c :: r)) as [ms|]; [|discriminate].
    destruct (to_iso_string_utc ms) as [pre Hpre]. rewrite Hpre in E.
    simpl in E. injection E as <- _. right. exists pre. reflexivity.
Qed.

End FormFacts.

(** ** Overlapping intents, the edit target, probing, timestamp display *)
Module Runs.
Import App Samples AppFacts.

(** C5: a toggle is issued on [[t5; t7]]; while it is in flight a
    natural-language create resolves and prepends its task; then the toggle
    resolves and writes [tasks.map(...)] over the collection captured when it
    was issued, so the natural-language task (object 2) disappears. *)
Theorem toggle_overwrites_concurrent_create :
  tasks (sess (run 0 world_init
    (loaded ++ [EToggle 5; ESubmitNL (js "Call mom");
                EResolve 2 (YTask (TResponse 201 t_nl))])))
    = [mkObj 2 t_nl; mkObj 0 t5; mkObj 1 t7] /\
  tasks (sess (run 0 world_init
    (loaded ++ [EToggle 5; ESubmitNL (js "Call mom");
                EResolve 2 (YTask (TResponse 201 t_nl));
                EResolve 1 (YTask (TResponse 200 t5_done))])))
    = [mkObj 3 t5_done; mkObj 1 t7].
Proof. split; vm_compute; reflexivity. Qed.

(** C7: editing [t5] and then toggling it leaves the edit target on the object
    captured at begin-edit, while the collection holds the server's newer
    state of task 5. *)
Lemma editing_target_not_refreshed :
  editingTask (sess (run 0 world_init
    (loaded ++ [EEdit 0; EToggle 5; EResolve 1 (YTask (TResponse 200 t5_done))])))
    = Some (mkObj 0 t5) /\
  find (fun t => id (oval t) =? 5)
    (tasks (sess (run 0 world_init
      (loaded ++ [EEdit 0; EToggle 5; EResolve 1 (YTask (TResponse 200 t5_done))]))))
    = Some (mkObj 2 t5_done) /\
  t5 <> t5_done.
Proof.
  split; [vm_compute; reflexivity|]. split; [vm_compute; reflexivity|].
  unfold t5, t5_done, task. congruence.
Qed.

(** C8: no session length makes a second health check happen. *)
Lemma no_periodic_health_probe :
  ~ (exists n : nat, forall tz evs, (n <= List.length evs)%nat ->
       (2 <= health_count (run tz world_init (EMount :: evs)))%nat).
Proof.
  intros [n Hn].
  specialize (Hn 0 (repeat EDismissError n) ltac:(rewrite repeat_length; lia)).
  change (run 0 world_init (EMount :: repeat EDismissError n))
    with (run 0 (step 0 world_init EMount) (repeat EDismissError n)) in Hn.
  assert (Hall : forall k, forallb (fun e => negb (is_mount e)) (repeat EDismissError k) = true)
    by (induction k as [|k IH]; [reflexivity | exact IH]).
  rewrite (run_health_count _ _ _ (Hall n)) in Hn.
  vm_compute in Hn. lia.
Qed.

(** C9: a stored timestamp without zone, shown in UTC-5: the task list
    ([TaskItem.formatDate]) reads it as local time (wall clock 19:07), the
    edit form ([formatForInput]) reads it as UTC (wall clock 14:07), and the
    list shows the same string with an explicit [Z] differently. *)
Theorem naive_timestamp_display_is_local :
  TaskItem.formatDate 300 (Some (js "2024-06-15T19:07:00"))
    = TaskItem.RLocal 1718478420000 /\
  to_iso_string (Some 1718478420000) = Some (js "2024-06-15T19:07:00.000Z") /\
  TaskItem.formatDate 300 (Some (js "2024-06-15T19:07:00Z"))
    = TaskItem.RLocal 1718460420000 /\
  Form.formatForInput 300 (Some (js "2024-06-15T19:07:00")) = js "2024-06-15T14:07".
Proof. repeat split; vm_compute; reflexivity. Qed.

End Runs.

(** ** Witnesses: the statements applied to concrete sessions *)
Module Witnesses.
Import App Samples TaskListFacts AppFacts FormFacts.

Lemma sortedTasks_display_order_witness :
  (0 < 1)%nat /\
  nth_error (TaskList.sortedTasks [mkObj 0 (task 1 "a" false 10); mkObj 1 (task 2 "b" true 20)]) 0
    = Some (mkObj 0 (task 1 "a" false 10)) /\
  nth_error (TaskList.sortedTasks [mkObj 0 (task 1 "a" false 10); mkObj 1 (task 2 "b" true 20)]) 1
    = Some (mkObj 1 (task 2 "b" true 20)) /\
  (false = true -> true = true) /\ (false = true -> 20 <= 10).
Proof.
  split; [lia|]. split; [reflexivity|]. split; [reflexivity|].
  exact (proj2 (sortedTasks_display_order
                  [mkObj 0 (task 1 "a" false 10); mkObj 1 (task 2 "b" true 20)])
               0%nat 1%nat _ _ ltac:(lia) eq_refl eq_refl).
Defined.

Lemma failed_crud_intent_only_sets_error_witness :
  pending w_idle = [] /\ crud_intent (EToggle 5) = true /\
  pending (step 0 w_idle (EToggle 5)) <> [] /\
  reply_fails (YTask TNetworkFailure) = true /\
  pending (step 0 (step 0 w_idle (EToggle 5)) (EResolve 0 (YTask TNetworkFailure))) = [] /\
  exists msg,
    sess (step 0 (step 0 w_idle (EToggle 5)) (EResolve 0 (YTask TNetworkFailure)))
      = setError (sess w_idle) (Some msg) /\
    tasks (sess (step 0 (step 0 w_idle (EToggle 5)) (EResolve 0 (YTask TNetworkFailure))))
      = tasks (sess w_idle).
Proof.
  assert (H1 : pending w_idle = []) by (vm_compute; reflexivity).
  assert (H3 : pending (step 0 w_idle (EToggle 5)) <> []) by (vm_compute; congruence).
  assert (H5 : pending (step 0 (step 0 w_idle (EToggle 5)) (EResolve 0 (YTask TNetworkFailure))) = [])
    by (vm_compute; reflexivity).
  repeat split; try assumption; try reflexivity.
  exact (failed_crud_intent_only_sets_error 0 w_idle (EToggle 5) (YTask TNetworkFailure)
           H1 eq_refl H3 eq_refl H5).
Defined.

Lemma checkHealth_never_rejects_witness :
  axios (@TNetworkFailure Api.HealthStatus) = Rejected NetworkError /\
  axios (TResponse 503 (ApiV1.mkHealth (js "down") true)) = Rejected (RemoteError 503) /\
  Api.checkHealth TNetworkFailure = Resolved (Api.mkHealth (js "error") (js "unavailable")) /\
  ApiV1.checkHealth (TResponse 503 (ApiV1.mkHealth (js "down") true))
    = Resolved (ApiV1.mkHealth (js "error") false).
Proof.
  split; [reflexivity|]. split; [reflexivity|].
  destruct (checkHealth_never_rejects TNetworkFailure (TResponse 503 (ApiV1.mkHealth (js "down") true)))
    as [_ [H2 [_ [H4 _]]]].
  split; [exact (H2 NetworkError eq_refl) | exact (H4 (RemoteError 503) eq_refl)].
Defined.

Lemma blank_title_submit_is_noop_witness :
  forallb is_js_ws (Form.ftitle (Form.mkForm [32; 9; 12288]%N [] [] (js "medium"))) = true /\
  step 0 w_idle (ESubmitForm (Form.mkForm [32; 9; 12288]%N [] [] (js "medium"))) = w_idle.
Proof.
  split; [reflexivity|].
  apply (blank_title_submit_is_noop 0 w_idle (Form.mkForm [32; 9; 12288]%N [] [] (js "medium"))).
  reflexivity.
Defined.

Lemma nl_create_lifecycle_witness :
  let s := sess (step 0 w_idle (ESubmitNL (js "Call mom"))) in
  isProcessingNL s = true /\ List.length (tasks s) = 2%nat /\
  resume s PNL (YTask (TResponse 201 t_nl))
    = Some (resume_nl s (Api.createTaskFromNaturalLanguage (TResponse 201 t_nl))) /\
  isProcessingNL (resume_nl s (Api.createTaskFromNaturalLanguage (TResponse 201 t_nl))) = false /\
  (exists o, tasks (resume_nl s (Api.createTaskFromNaturalLanguage (TResponse 201 t_nl)))
             = o :: tasks s /\ oval o = t_nl) /\
  resume s PNL (YTask TNetworkFailure)
    = Some (resume_nl s (Api.createTaskFromNaturalLanguage TNetworkFailure)) /\
  isProcessingNL (resume_nl s (Api.createTaskFromNaturalLanguage TNetworkFailure)) = false /\
  tasks (resume_nl s (Api.createTaskFromNaturalLanguage TNetworkFailure)) = tasks s /\
  error (resume_nl s (Api.createTaskFromNaturalLanguage TNetworkFailure)) = Some msg_nl.
Proof.
  intros s.
  assert (Hok : resume s PNL (YTask (TResponse 201 t_nl))
                = Some (resume_nl s (Api.createTaskFromNaturalLanguage (TResponse 201 t_nl))))
    by reflexivity.
  assert (Hko : resume s PNL (YTask TNetworkFailure)
                = Some (resume_nl s (Api.createTaskFromNaturalLanguage TNetworkFailure)))
    by reflexivity.
  destruct (proj1 (proj2 nl_create_lifecycle) s _ _ Hok) as [Hp1 [t1 [E1 M1]]].
  destruct (proj1 (proj2 nl_create_lifecycle) s _ _ Hko) as [Hp2 [t2 [E2 M2]]].
  injection E1 as <-. injection E2 as <-.
  assert (A1 : axios (TResponse 201 t_nl) = Resolved t_nl) by reflexivity.
  assert (A2 : axios (@TNetworkFailure Task) = Rejected NetworkError) by reflexivity.
  rewrite A1 in M1. rewrite A2 in M2.
  destruct M1 as [o [Ho [Hv _]]]. destruct M2 as [Ht He].
  split; [subst s; vm_compute; reflexivity|]. split; [subst s; vm_compute; reflexivity|].
  split; [exact Hok|]. split; [exact Hp1|]. split; [exists o; split; assumption|].
  split; [exact Hko|]. split; [exact Hp2|]. split; assumption.
Defined.

Lemma editing_target_is_captured_object_witness :
  editingTask (handleEditTask init (mkObj 0 t5)) = Some (mkObj 0 t5) /\
  handleUpdateTask (handleEditTask init (mkObj 0 t5)) (create_as_update (mkTaskCreate (js "Report") None None None))
    = (setError (handleEditTask init (mkObj 0 t5)) None,
       Some (RUpdate 5 (create_as_update (mkTaskCreate (js "Report") None None None)),
             PUpdate (mkObj 0 t5) [])).
Proof.
  split; [reflexivity|].
  exact (proj2 editing_target_is_captured_object (handleEditTask init (mkObj 0 t5)) (mkObj 0 t5)
           (create_as_update (mkTaskCreate (js "Report") None None None)) eq_refl).
Defined.

Lemma single_health_check_witness :
  forallb (fun e => negb (is_mount e)) [EDismissError; EAddClick; EToggle 5] = true /\
  health_count (run 0 world_init [EMount; EDismissError; EAddClick; EToggle 5]) = 1%nat.
Proof.
  split; [reflexivity|].
  apply (single_health_check 0 [EDismissError; EAddClick; EToggle 5]). reflexivity.
Defined.

Lemma form_always_submits_priority_witness :
  priority t5 = None /\ Form.fpriority (Form.fill 0 t5) = js "medium" /\
  Form.handleSubmit 0 false
    (Form.form_run 0 Form.form_init [Form.FChangeTitle (js " Read "); Form.FChangePriority Form.OHigh])
    = (Form.FSubmitted (mkTaskCreate (js "Read") None None (Some (js "high"))), Form.form_init) /\
  exists p, tc_priority (mkTaskCreate (js "Read") None None (Some (js "high"))) = Some p /\ p <> [].
Proof.
  destruct form_always_submits_priority as [_ [H2 H3]].
  split; [reflexivity|]. split; [exact (H2 0 t5 eq_refl)|].
  split; [vm_compute; reflexivity|].
  exact (H3 0 [Form.FChangeTitle (js " Read "); Form.FChangePriority Form.OHigh] false
            (mkTaskCreate (js "Read") None None (Some (js "high"))) Form.form_init
            ltac:(vm_compute; reflexivity)).
Defined.

End Witnesses.

(** * Further properties of the code *)

(** ** Ties in the display order *)
Module TaskListStable.
Import TaskList TaskListFacts.

Lemma lt_le_trans (x y z : obj) : compare x y < 0 -> le y z -> compare x z < 0.
Proof.
  unfold le, compare.
  destruct (completed (oval x)), (completed (oval y)), (completed (oval z)); simpl; lia.
Qed.

Lemma tie_trans (x y c : obj) : compare x c = 0 -> compare y c = 0 -> compare x y = 0.
Proof.
  unfold compare.
  destruct (completed (oval x)), (completed (oval y)), (completed (oval c)); simpl; lia.
Qed.

Lemma sorted_all_greater (x y : obj) (r : list obj) :
  Sorted le (y :: r) -> compare x y < 0 -> Forall (fun z => compare x z < 0) (y :: r).
Proof.
  intros Hs Hxy. apply Sorted_StronglySorted in Hs; [|exact le_trans].
  inversion Hs as [|? ? _ Hall]; subst. constructor; [exact Hxy|].
  eapply Forall_impl; [|exact Hall]. intros z Hz. eapply lt_le_trans; eassumption.
Qed.

Lemma filter_insert (c x : obj) (l : list obj) :
  Sorted le l ->
  filter (fun z => compare z c =? 0) (insert x l)
  = filter (fun z => compare z c =? 0) l ++ (if compare x c =? 0 then [x] else []).
Proof.
  induction l as [|y r IH]; intros Hs; simpl.
  - destruct (compare x c =? 0); reflexivity.
  - destruct (compare x y <? 0) eqn:Hxy.
    + apply Z.ltb_lt in Hxy.
      destruct (compare x c =? 0) eqn:Hxc.
      * apply Z.eqb_eq in Hxc.
        assert (Hnone : filter (fun z => compare z c =? 0) (y :: r) = []).
        { apply (sorted_all_greater x y r Hs) in Hxy. clear IH Hs.
          induction Hxy as [|z l' Hz _ IHl]; [reflexivity|].
          simpl. destruct (compare z c =? 0) eqn:Hzc; [|exact IHl].
          apply Z.eqb_eq in Hzc. pose proof (tie_trans x z c Hxc Hzc). lia. }
        simpl in Hnone |- *. rewrite Hnone, (proj2 (Z.eqb_eq _ _) Hxc). reflexivity.
      * simpl. rewrite Hxc. rewrite app_nil_r. reflexivity.
    + inversion Hs; subst. simpl. rewrite IH by assumption.
      destruct (compare y c =? 0); reflexivity.
Qed.

Lemma filter_sort_acc (c : obj) (l acc : list obj) :
  Sorted le acc ->
  filter (fun z => compare z c =? 0) (fold_left (fun acc x => insert x acc) l acc)
  = filter (fun z => compare z c =? 0) acc ++ filter (fun z => compare z c =? 0) l.
Proof.
  revert acc. induction l as [|x r IH]; intros acc Hs; simpl.
  - rewrite app_nil_r. reflexivity.
  - rewrite IH by (apply insert_sorted, Hs). rewrite filter_insert by exact Hs.
    rewrite <- app_assoc. destruct (compare x c =? 0); reflexivity.
Qed.

(** The display sort is stable: the tasks that tie with any given task (same
    completion flag and same creation time) appear in the display in the same
    relative order as in the collection. *)
Theorem sortedTasks_stable (c : obj) (ts : list obj) :
  filter (fun z => compare z c =? 0) (sortedTasks ts) = filter (fun z => compare z c =? 0) ts.
Proof.
  unfold sortedTasks, sort. rewrite filter_sort_acc by constructor. reflexivity.
Qed.

End TaskListStable.

(** ** [String.prototype.trim] *)
Module TrimFacts.

Lemma trim_start_spec (s : jsstr) :
  exists p, s = p ++ trim_start s /\ forallb is_js_ws p = true /\
            (forall c, hd_error (trim_start s) = Some c -> is_js_ws c = false).
Proof.
  induction s as [|c r IH]; simpl.
  - exists []. repeat split. discriminate.
  - destruct (is_js_ws c) eqn:Hc.
    + destruct IH as [p [E [Hp Hh]]]. exists (c :: p). simpl. rewrite Hc, Hp, <- E.
      repeat split. exact Hh.
    + exists []. repeat split. simpl. intros c' E. injection E as <-. exact Hc.
Qed.

Lemma forallb_rev {A} (f : A -> bool) (l : list A) : forallb f (rev l) = forallb f l.
Proof.
  induction l as [|x r IH]; simpl; [reflexivity|].
  rewrite forallb_app, IH. simpl. rewrite andb_true_r, andb_comm. reflexivity.
Qed.

Lemma hd_error_app_some {A} (l m : list A) (c : A) :
  hd_error l = Some c -> hd_error (l ++ m) = Some c.
Proof. destruct l; simpl; [discriminate | exact (fun H => H)]. Qed.

Lemma trim_shape (s : jsstr) :
  exists p q, s = p ++ trim s ++ q /\
    forallb is_js_ws p = true /\ forallb is_js_ws q = true /\
    (forall c, hd_error (trim s) = Some c -> is_js_ws c = false) /\
    (forall c, hd_error (rev (trim s)) = Some c -> is_js_ws c = false).
Proof.
  destruct (trim_start_spec s) as [p1 [E1 [H1 _]]].
  destruct (trim_start_spec (rev (trim_start s))) as [p2 [E2 [H2 Hh2]]].
  unfold trim. set (u := trim_start s) in *. set (v := trim_start (rev u)) in *.
  assert (Eu : u = rev v ++ rev p2) by (rewrite <- rev_app_distr, <- E2, rev_involutive; reflexivity).
  exists p1, (rev p2). split; [|split; [exact H1|split; [rewrite forallb_rev; exact H2|split]]].
  - rewrite E1 at 1. rewrite Eu. reflexivity.
  - intros c Hc. destruct (trim_start_spec s) as [_ [_ [_ Hh1]]]. apply Hh1.
    fold u. rewrite Eu. apply hd_error_app_some, Hc.
  - rewrite rev_involutive. exact Hh2.
Qed.

(** [trim] removes exactly a whitespace prefix and a whitespace suffix: the
    input is the result surrounded by whitespace, and the result neither
    starts nor ends with a whitespace code unit. *)
Theorem trim_strips_whitespace (s : jsstr) :
  exists p q, s = p ++ trim s ++ q /\
    forallb is_js_ws p = true /\ forallb is_js_ws q = true /\
    (forall c, hd_error (trim s) = Some c -> is_js_ws c = false) /\
    (forall c, hd_error (rev (trim s)) = Some c -> is_js_ws c = false).
Proof. exact (trim_shape s). Qed.

Lemma trim_nil_all_ws (s : jsstr) : trim s = [] -> forallb is_js_ws s = true.
Proof.
  intros E. destruct (trim_shape s) as [p [q [Es [Hp [Hq _]]]]].
  rewrite E in Es. simpl in Es. rewrite Es, forallb_app, Hp, Hq. reflexivity.
Qed.

End TrimFacts.

(** ** [AddTaskForm.handleSubmit] and [formatForInput] *)
Module FormMore.
Import Form.

Lemma jsstr_eqb_nil (s : jsstr) : jsstr_eqb s [] = true <-> s = [].
Proof. unfold jsstr_eqb. destruct (list_eq_dec N.eq_dec s []); split; congruence. Qed.

Lemma to_iso_string_some (ms : Z) : to_iso_string (Some ms) <> None.
Proof. destruct (FormFacts.to_iso_string_utc ms) as [pre E]. rewrite E. discriminate. Qed.

(** The three outcomes of a submit: a title that is empty after trimming
    raises the alert and leaves the form as it is; otherwise a non-empty due
    date that [Date] cannot parse makes [toISOString] throw, again with the
    form untouched; otherwise the draft carries the trimmed, non-empty title
    and the trimmed description (absent when it trims to nothing), an absent
    due date when the field is empty and otherwise the [toISOString] of the
    parsed date, the priority as typed (absent when empty), and the form is
    reset to its initial state in create mode and kept in edit mode. *)
Theorem handleSubmit_outcome (tz : Z) (ed : bool) (f : FormTask) :
  match handleSubmit tz ed f with
  | (FAlert, f') => forallb is_js_ws (ftitle f) = true /\ f' = f
  | (FThrow, f') =>
      f' = f /\ trim (ftitle f) <> [] /\ fdue_date f <> [] /\ date_parse tz (fdue_date f) = None
  | (FSubmitted d, f') =>
      tc_title d = trim (ftitle f) /\ tc_title d <> [] /\
      ((trim (fdescription f) = [] /\ tc_description d = None) \/
       (trim (fdescription f) <> [] /\ tc_description d = Some (trim (fdescription f)))) /\
      ((fdue_date f = [] /\ tc_due_date d = None) \/
       (exists ms, date_parse tz (fdue_date f) = Some ms /\ tc_due_date d = to_iso_string (Some ms))) /\
      ((fpriority f = [] /\ tc_priority d = None) \/
       (fpriority f <> [] /\ tc_priority d = Some (fpriority f))) /\
      f' = (if ed then f else form_init)
  end.
Proof.
  unfold handleSubmit.
  destruct (jsstr_eqb (trim (ftitle f)) []) eqn:Ht.
  - split; [apply TrimFacts.trim_nil_all_ws, jsstr_eqb_nil, Ht | reflexivity].
  - assert (Ht' : trim (ftitle f) <> []) by (intros E; apply jsstr_eqb_nil in E; congruence).
    assert (Hpr : (fpriority f = [] /\ match fpriority f with [] => None | p => Some p end = None) \/
                  (fpriority f <> [] /\ match fpriority f with [] => None | p => Some p end
                                         = Some (fpriority f)))
      by (destruct (fpriority f); [left | right]; split; simpl; try reflexivity; discriminate).
    destruct (fdue_date f) as [|c r] eqn:Hd.
    + simpl. split; [reflexivity|]. split; [exact Ht'|]. split.
      { destruct (trim (fdescription f)); [left | right]; split; congruence. }
      split; [left; split; reflexivity|]. split; [exact Hpr | reflexivity].
    + destruct (date_parse tz (c :: r)) as [ms|] eqn:Hp.
      * destruct (to_iso_string (Some ms)) as [iso|] eqn:Hi; [|exfalso; exact (to_iso_string_some ms Hi)].
        simpl. split; [reflexivity|]. split; [exact Ht'|]. split.
        { destruct (trim (fdescription f)); [left | right]; split; congruence. }
        split; [right; exists ms; split; [reflexivity | symmetry; exact Hi]|].
        split; [exact Hpr | reflexivity].
      * simpl. split; [reflexivity|]. split; [exact Ht'|]. split; [discriminate | reflexivity].
Qed.

End FormMore.

(** ** Requests in flight and the loading flags *)
Module InflightFacts.
Import App Inflight.

Lemma count_pending_app (f : Pending -> bool) (l : list Pending) (p : Pending) :
  count_pending f (l ++ [p]) = (count_pending f l + if f p then 1 else 0)%nat.
Proof. unfold count_pending. rewrite filter_app, length_app. simpl. destruct (f p); reflexivity. Qed.

Lemma count_remove_nth (f : Pending -> bool) (k : nat) (l : list Pending) (p : Pending) :
  nth_error l k = Some p ->
  count_pending f l = (count_pending f (remove_nth k l) + if f p then 1 else 0)%nat.
Proof.
  unfold count_pending. revert k. induction l as [|x r IH]; intros k H.
  - destruct k; discriminate.
  - destruct k as [|k]; simpl in H |- *.
    + injection H as <-. destruct (f x); simpl; lia.
    + specialize (IH k H). destruct (f x); simpl; lia.
Qed.

Lemma alloc_list_state (s : Session) (ts : list Task) :
  snd (alloc_list s ts) = setNextRef s (next_ref s + N.of_nat (List.length ts)).
Proof.
  revert s. induction ts as [|t r IH]; intros s; simpl.
  - destruct s; unfold setNextRef; simpl. f_equal. lia.
  - destruct (alloc_list (setNextRef s (N.succ (next_ref s))) r) as [os s2] eqn:E.
    specialize (IH (setNextRef s (N.succ (next_ref s)))). rewrite E in IH. simpl in IH |- *.
    rewrite IH. destruct s; unfold setNextRef; simpl. f_equal. lia.
Qed.

(** A continuation clears nl-loading exactly when it is the natural-language
    one, and loading exactly when it is the load; it keeps both otherwise. *)
Lemma resume_flags (s : Session) (p : Pending) (y : Reply) (s' : Session) :
  resume s p y = Some s' ->
  isProcessingNL s' = (if is_pnl p then false else isProcessingNL s) /\
  isLoading s' = (if is_pload p then false else isLoading s).
Proof.
  intros H. destruct p, y; simpl in H; try discriminate; injection H as <-; simpl.
  - unfold resume_load. destruct (Api.getTasks t) as [ts|e]; [|destruct s; split; reflexivity].
    destruct (alloc_list s ts) as [os s1] eqn:E.
    pose proof (alloc_list_state s ts) as Hs. rewrite E in Hs. simpl in Hs. subst s1.
    destruct s; split; reflexivity.
  - unfold resume_health. destruct (Api.checkHealth t); destruct s; split; reflexivity.
  - unfold resume_create. destruct (Api.createTask t); destruct s; split; reflexivity.
  - unfold resume_nl. destruct (Api.createTaskFromNaturalLanguage t); destruct s; split; reflexivity.
  - unfold resume_toggle. destruct (Api.updateTask t); destruct s; split; reflexivity.
  - unfold resume_delete. destruct (Api.deleteTask t); destruct s; split; reflexivity.
  - unfold resume_update. destruct (Api.updateTask t); destruct s; split; reflexivity.
Qed.

Lemma issue_parts (w : World) (so : Session * option (Request * Pending)) :
  sess (issue w so) = fst so /\
  pending (issue w so) = pending w ++ match snd so with Some (_, p) => [p] | None => [] end.
Proof. destruct so as [s [[rq p]|]]; simpl; [|rewrite app_nil_r]; split; reflexivity. Qed.

Ltac count_tac :=
  repeat rewrite ?count_pending_app, ?app_nil_r in *; simpl in *; try lia.

(** Every step keeps the nl-loading flag in step with the natural-language
    requests in flight. *)
Lemma step_nl_inv (tz : Z) (w : World) (e : Event) : nl_inv w -> nl_inv (step tz w e).
Proof.
  unfold nl_inv. destruct w as [s pw sw]. intros H. simpl in H.
  destruct e as [| f | text | tid | tid c | r | | | | k y]; simpl.
  - count_tac; destruct s; simpl in *; lia.
  - destruct (editingTask s) as [e|] eqn:He;
      destruct (fst (Form.handleSubmit tz _ f)); simpl; try exact H.
    + unfold handleUpdateTask. rewrite He. simpl. count_tac; destruct s; simpl in *; lia.
    + unfold handleCreateTask. simpl. count_tac; destruct s; simpl in *; lia.
  - destruct (negb (jsstr_eqb (trim text) []) && negb (isProcessingNL s)) eqn:Hc; [|exact H].
    apply andb_true_iff in Hc as [_ Hc]. apply negb_true_iff in Hc. rewrite Hc in H.
    unfold handleNaturalLanguageCreate. simpl. count_tac; destruct s; simpl in *; lia.
  - unfold handleToggleTask. destruct (find _ (tasks s)); simpl; count_tac; destruct s; simpl in *; lia.
  - unfold handleDeleteTask. destruct c; simpl; count_tac; destruct s; simpl in *; lia.
  - destruct (find _ (tasks s)); simpl; [destruct s; exact H | exact H].
  - destruct s; exact H.
  - destruct s; exact H.
  - destruct s; exact H.
  - destruct (nth_error pw k) as [p|] eqn:Hk; [|exact H].
    destruct (resume s p y) as [s'|] eqn:Hr; [|exact H]. simpl.
    destruct (resume_flags s p y s' Hr) as [Hf _]. rewrite Hf.
    rewrite (count_remove_nth is_pnl k pw p Hk) in H.
    destruct p; simpl in *; destruct (isProcessingNL s), (isLoading s); lia.
Qed.

(** The same for the loading flag, for every step but the mount effect. *)
Lemma step_load_inv (tz : Z) (w : World) (e : Event) :
  is_mount e = false -> load_inv w -> load_inv (step tz w e).
Proof.
  unfold load_inv. destruct w as [s pw sw]. intros Hm H. simpl in H.
  destruct e as [| f | text | tid | tid c | r | | | | k y]; simpl; try discriminate Hm.
  - destruct (editingTask s) as [e|] eqn:He;
      destruct (fst (Form.handleSubmit tz _ f)); simpl; try exact H.
    + unfold handleUpdateTask. rewrite He. simpl. count_tac; destruct s; simpl in *; lia.
    + unfold handleCreateTask. simpl. count_tac; destruct s; simpl in *; lia.
  - destruct (negb (jsstr_eqb (trim text) []) && negb (isProcessingNL s)); [|exact H].
    unfold handleNaturalLanguageCreate. simpl. count_tac; destruct s; simpl in *; lia.
  - unfold handleToggleTask. destruct (find _ (tasks s)); simpl; count_tac; destruct s; simpl in *; lia.
  - unfold handleDeleteTask. destruct c; simpl; count_tac; destruct s; simpl in *; lia.
  - destruct (find _ (tasks s)); simpl; [destruct s; exact H | exact H].
  - destruct s; exact H.
  - destruct s; exact H.
  - destruct s; exact H.
  - destruct (nth_error pw k) as [p|] eqn:Hk; [|exact H].
    destruct (resume s p y) as [s'|] eqn:Hr; [|exact H]. simpl.
    destruct (resume_flags s p y s' Hr) as [_ Hf]. rewrite Hf.
    rewrite (count_remove_nth is_pload k pw p Hk) in H.
    destruct p; simpl in *; destruct (isProcessingNL s), (isLoading s); lia.
Qed.

(** In every run of the page, the "processing" flag of the natural-language
    input is set exactly while one natural-language request is in flight,
    and there is never more than one such request. *)
Theorem nl_flag_tracks_inflight (tz : Z) (evs : list Event) :
  count_pending is_pnl (pending (run tz world_init evs))
  = if isProcessingNL (sess (run tz world_init evs)) then 1%nat else 0%nat.
Proof.
  unfold run. change (nl_inv (fold_left (step tz) evs world_init)).
  assert (H0 : nl_inv world_init) by reflexivity. revert H0. generalize world_init.
  induction evs as [|e r IH]; intros w H; simpl; [exact H|].
  apply IH, step_nl_inv, H.
Qed.

(** After the mount effect, and as long as it does not run again, the
    loading flag is set exactly while the task load is in flight. *)
Theorem loading_flag_tracks_load (tz : Z) (evs : list Event) :
  forallb (fun e => negb (is_mount e)) evs = true ->
  count_pending is_pload (pending (run tz world_init (EMount :: evs)))
  = if isLoading (sess (run tz world_init (EMount :: evs))) then 1%nat else 0%nat.
Proof.
  intros Hm. unfold run. simpl. change (load_inv (fold_left (step tz) evs (step tz world_init EMount))).
  assert (H0 : load_inv (step tz world_init EMount)) by reflexivity. revert H0.
  generalize (step tz world_init EMount).
  induction evs as [|e r IH]; intros w H; simpl in *; [exact H|].
  apply andb_true_iff in Hm as [He Hr]. apply negb_true_iff in He.
  apply IH; [exact Hr|]. apply step_load_inv; assumption.
Qed.

(** Every event other than a settlement that puts a request on the wire
    (the mount effect or a user intent) leaves no error banner. *)
Theorem issuing_event_clears_error (tz : Z) (w : World) (e : Event) :
  settles e = false ->
  List.length (sent (step tz w e)) <> List.length (sent w) ->
  error (sess (step tz w e)) = None.
Proof.
  intros Hs Hl. destruct w as [s pw sw].
  destruct e as [| f | text | tid | tid c | r | | | | k y]; simpl in *; try discriminate Hs.
  - destruct s; reflexivity.
  - destruct (editingTask s) as [e|] eqn:He;
      destruct (fst (Form.handleSubmit tz _ f)); simpl in *; try congruence;
      unfold handleUpdateTask; rewrite ?He; destruct s; reflexivity.
  - destruct (negb (jsstr_eqb (trim text) []) && negb (isProcessingNL s)); simpl in *; [|congruence].
    destruct s; reflexivity.
  - unfold handleToggleTask in *. destruct (find _ (tasks s)); simpl in *; [|congruence].
    destruct s; reflexivity.
  - unfold handleDeleteTask in *. destruct c; simpl in *; [|congruence]. destruct s; reflexivity.
  - destruct (find _ (tasks s)); simpl in *; congruence.
  - congruence.
  - congruence.
  - congruence.
Qed.

End InflightFacts.

(** ** Each intent on its own: what a successful round trip does *)
Module IsolatedFacts.
Import App.

Lemma alloc_list_objs (s : Session) (ts : list Task) :
  map oval (fst (alloc_list s ts)) = ts /\
  Forall (fun o => (next_ref s <= oref o)%N) (fst (alloc_list s ts)) /\
  NoDup (map oref (fst (alloc_list s ts))).
Proof.
  revert s. induction ts as [|t r IH]; intros s; simpl.
  - split; [reflexivity|]. split; constructor.
  - destruct (alloc_list (setNextRef s (N.succ (next_ref s))) r) as [os s2] eqn:E.
    specialize (IH (setNextRef s (N.succ (next_ref s)))). rewrite E in IH. simpl in IH |- *.
    destruct IH as [Hv [Hge Hnd]]. destruct s as [ts0 ld er ed nl sh av nr]; simpl in *.
    split; [rewrite Hv; reflexivity|]. split.
    + constructor; [simpl; lia|]. eapply Forall_impl; [|exact Hge]. intros o Ho. cbv beta in Ho |- *. lia.
    + constructor; [|exact Hnd]. intros Hin. apply in_map_iff in Hin as [o [Eo Ho]].
      rewrite Forall_forall in Hge. specialize (Hge o Ho). lia.
Qed.

Lemma alloc_list_below (s : Session) (ts : list Task) :
  Forall (fun o => (oref o < next_ref s + N.of_nat (List.length ts))%N) (fst (alloc_list s ts)).
Proof.
  revert s. induction ts as [|t r IH]; intros s; simpl; [constructor|].
  destruct (alloc_list (setNextRef s (N.succ (next_ref s))) r) as [os s2] eqn:E.
  specialize (IH (setNextRef s (N.succ (next_ref s)))). rewrite E in IH. simpl in IH |- *.
  destruct s as [ts0 ld er ed nl sh av nr]; simpl in *.
  constructor; [simpl; lia|]. eapply Forall_impl; [|exact IH]. intros o Ho. cbv beta in Ho |- *. lia.
Qed.

(** The mount effect issues the load and the health check; when the load
    settles first, a successful response becomes the collection, in the
    server's order, as pairwise distinct objects whose references are fresh:
    taken from the allocation counter, which moves past all of them; a failed
    one keeps the collection and shows the load message; loading ends either way. *)
Theorem mount_load_settles (tz : Z) (w : World) (t : transport (list Task)) :
  pending w = [] ->
  let w1 := step tz w EMount in
  let w2 := step tz w1 (EResolve 0 (YTasks t)) in
  sent w1 = sent w ++ [RGetTasks; RHealth] /\ pending w2 = [PHealth] /\
  isLoading (sess w2) = false /\
  match axios t with
  | Resolved ts =>
      map oval (tasks (sess w2)) = ts /\ NoDup (map oref (tasks (sess w2))) /\
      Forall (fun o => (next_ref (sess w) <= oref o < next_ref (sess w2))%N) (tasks (sess w2)) /\
      error (sess w2) = None
  | Rejected _ => tasks (sess w2) = tasks (sess w) /\ error (sess w2) = Some msg_load
  end.
Proof.
  intros Hp. cbv zeta. destruct w as [s pw sw]. simpl in Hp. subst pw. simpl.
  split; [rewrite <- app_assoc; reflexivity|]. split; [reflexivity|].
  unfold resume_load, Api.getTasks.
  destruct (axios t) as [ts|e].
  - destruct (alloc_list (setError (setIsLoading s true) None) ts) as [os s1] eqn:E.
    pose proof (alloc_list_objs (setError (setIsLoading s true) None) ts) as Ho.
    pose proof (InflightFacts.alloc_list_state (setError (setIsLoading s true) None) ts) as Hs.
    pose proof (alloc_list_below (setError (setIsLoading s true) None) ts) as Hb.
    rewrite E in Ho, Hs, Hb. simpl in Ho, Hs, Hb. subst s1. destruct Ho as [Hv [Hge Hnd]].
    destruct s; simpl in *. split; [reflexivity|]. split; [exact Hv|]. split; [exact Hnd|].
    split; [|reflexivity].
    rewrite Forall_forall in Hge, Hb |- *. intros o Ho. split; [exact (Hge o Ho) | exact (Hb o Ho)].
  - destruct s; simpl; repeat split.
Qed.

(** A toggle of an id that is not listed does nothing. A toggle of a listed
    task, with nothing else in flight, sends the negation of its completion
    flag and nothing else; when it succeeds, every task with that id is
    replaced by one object holding the returned task and every other task stays
    the very same object. *)
Theorem toggle_in_isolation (tz : Z) (w : World) (tid : Z) :
  (find (fun t => id (oval t) =? tid) (tasks (sess w)) = None -> step tz w (EToggle tid) = w) /\
  (forall t0 t tk,
     find (fun t => id (oval t) =? tid) (tasks (sess w)) = Some t0 ->
     pending w = [] -> axios t = Resolved tk ->
     let w1 := step tz w (EToggle tid) in
     let w2 := step tz w1 (EResolve 0 (YTask t)) in
     sent w1 = sent w ++ [RUpdate tid (mkTaskUpdate None None (Some (negb (completed (oval t0)))) None None)] /\
     pending w2 = [] /\ error (sess w2) = None /\
     exists o, oval o = tk /\ tasks (sess w2) = replace_id tid o (tasks (sess w))).
Proof.
  destruct w as [s pw sw]. simpl. unfold handleToggleTask. split.
  - intros Hf. rewrite Hf. reflexivity.
  - intros t0 t tk Hf Hp Ht. cbv zeta. subst pw. rewrite Hf. simpl.
    unfold resume_toggle, Api.updateTask. rewrite Ht.
    split; [reflexivity|]. split; [reflexivity|].
    destruct s; simpl. split; [reflexivity|]. eexists; split; [|reflexivity]; reflexivity.
Qed.

(** A delete the user does not confirm does nothing. A confirmed delete, with
    nothing else in flight, sends one delete request; when it succeeds the
    collection is the previous one without the tasks of that id, in the same
    order and as the same objects. *)
Theorem delete_in_isolation (tz : Z) (w : World) (tid : Z) :
  step tz w (EDelete tid false) = w /\
  (forall t,
     pending w = [] -> axios t = Resolved tt ->
     let w2 := step tz (step tz w (EDelete tid true)) (EResolve 0 (YVoid t)) in
     sent w2 = sent w ++ [RDelete tid] /\ pending w2 = [] /\ error (sess w2) = None /\
     tasks (sess w2) = filter (fun o => negb (id (oval o) =? tid)) (tasks (sess w))).
Proof.
  destruct w as [s pw sw]. split; [reflexivity|].
  intros t Hp Ht. cbv zeta. simpl in Hp. subst pw. simpl.
  unfold resume_delete, Api.deleteTask. rewrite Ht.
  split; [reflexivity|]. split; [reflexivity|]. destruct s; split; reflexivity.
Qed.

(** Submitting the form in create mode, with nothing else in flight, sends
    exactly the submitted draft; when the create succeeds the returned task is
    put in front of the unchanged collection and the form is closed. *)
Theorem create_in_isolation (tz : Z) (w : World) (f : Form.FormTask) (d : TaskCreate)
    (f' : Form.FormTask) (t : transport Task) (tk : Task) :
  pending w = [] -> editingTask (sess w) = None ->
  Form.handleSubmit tz false f = (Form.FSubmitted d, f') -> axios t = Resolved tk ->
  let w2 := step tz (step tz w (ESubmitForm f)) (EResolve 0 (YTask t)) in
  sent w2 = sent w ++ [RCreate d] /\ pending w2 = [] /\ error (sess w2) = None /\
  showAddForm (sess w2) = false /\
  exists o, oval o = tk /\ tasks (sess w2) = o :: tasks (sess w).
Proof.
  intros Hp He Hs Ht. cbv zeta. destruct w as [s pw sw]. simpl in Hp, He |- *. subst pw.
  rewrite He, Hs. simpl. unfold resume_create, Api.createTask. rewrite Ht.
  split; [reflexivity|]. split; [reflexivity|].
  destruct s; simpl. split; [reflexivity|]. split; [reflexivity|]. eexists; split; [|reflexivity]; reflexivity.
Qed.

(** Saving the form in edit mode, with nothing else in flight, sends one
    update for the id of the edit target, carrying the draft's fields and no
    completion flag; when it succeeds the tasks of that id are replaced by the
    returned task, the edit target is cleared and the form is closed. *)
Theorem edit_save_in_isolation (tz : Z) (w : World) (e : obj) (f : Form.FormTask) (d : TaskCreate)
    (f' : Form.FormTask) (t : transport Task) (tk : Task) :
  pending w = [] -> editingTask (sess w) = Some e ->
  Form.handleSubmit tz true f = (Form.FSubmitted d, f') -> axios t = Resolved tk ->
  let w2 := step tz (step tz w (ESubmitForm f)) (EResolve 0 (YTask t)) in
  sent w2 = sent w ++ [RUpdate (id (oval e))
                         (mkTaskUpdate (Some (tc_title d)) (tc_description d) None
                                       (tc_due_date d) (tc_priority d))] /\
  pending w2 = [] /\ error (sess w2) = None /\
  editingTask (sess w2) = None /\ showAddForm (sess w2) = false /\
  exists o, oval o = tk /\ tasks (sess w2) = replace_id (id (oval e)) o (tasks (sess w)).
Proof.
  intros Hp He Hs Ht. cbv zeta. destruct w as [s pw sw]. simpl in Hp, He |- *. subst pw.
  rewrite He, Hs. simpl. unfold handleUpdateTask. rewrite He. simpl.
  unfold resume_update, Api.updateTask. rewrite Ht.
  split; [reflexivity|]. split; [reflexivity|].
  destruct s; simpl. split; [reflexivity|]. split; [reflexivity|]. split; [reflexivity|].
  eexists; split; [|reflexivity]; reflexivity.
Qed.

End IsolatedFacts.

(** ** Calendar arithmetic and the due date of the edit form *)
Module DateFacts.

Lemma is_leap_period (y k : Z) : is_leap (y + k * 400) = is_leap y.
Proof.
  unfold is_leap.
  replace (k * 400) with ((k * 100) * 4) by ring. rewrite Z_mod_plus_full.
  replace ((k * 100) * 4) with ((k * 4) * 100) by ring. rewrite Z_mod_plus_full.
  replace ((k * 4) * 100) with (k * 400) by ring. rewrite Z_mod_plus_full.
  reflexivity.
Qed.

Lemma yoe_bounds (doe : Z) : 0 <= doe <= 146096 ->
  let yoe := (doe - doe / 1460 + doe / 36524 - doe / 146096) / 365 in
  0 <= yoe <= 399 /\ 0 <= doe - (365 * yoe + yoe / 4 - yoe / 100) <= 365.
Proof. intros H yoe. subst yoe. Z.div_mod_to_equations. lia. Qed.

(** The last day of a March-based year of the 400-year cycle is the 29th of
    February of a leap year. *)
Lemma leap_days_check :
  forallb (fun y =>
    let doe := 365 * y + y / 4 - y / 100 + 365 in
    negb ((doe - doe / 1460 + doe / 36524 - doe / 146096) / 365 =? y) || is_leap (y + 1))
    (map Z.of_nat (seq 0 400)) = true.
Proof. vm_compute. reflexivity. Qed.

Lemma civil_from_days_spec (D : Z) :
  let '(y, m, d) := civil_from_days D in
  1 <= m <= 12 /\ 1 <= d <= days_in_month y m /\ days_from_civil y m d = D.
Proof.
  unfold civil_from_days. cbv zeta.
  set (z := D + 719468). set (era := z / 146097). set (doe := z - era * 146097).
  assert (Hdoe : 0 <= doe <= 146096) by (subst doe era; Z.div_mod_to_equations; lia).
  pose proof (yoe_bounds doe Hdoe) as Hy. cbv zeta in Hy.
  set (yoe := (doe - doe / 1460 + doe / 36524 - doe / 146096) / 365) in *.
  set (doy := doe - (365 * yoe + yoe / 4 - yoe / 100)) in *.
  set (mp := (5 * doy + 2) / 153).
  assert (Hmp : 153 * mp <= 5 * doy + 2 < 153 * mp + 153) by (subst mp; Z.div_mod_to_equations; lia).
  set (q := (153 * mp + 2) / 5).
  assert (Hq : 5 * q <= 153 * mp + 2 < 5 * q + 5) by (subst q; Z.div_mod_to_equations; lia).
  assert (Hz : z = D + 719468) by reflexivity.
  assert (Hdoe_def : doe = z - era * 146097) by reflexivity.
  assert (Hyoe_def : yoe = (doe - doe / 1460 + doe / 36524 - doe / 146096) / 365) by reflexivity.
  assert (Hdoy_def : doy = doe - (365 * yoe + yoe / 4 - yoe / 100)) by reflexivity.
  assert (Hq_def : q = (153 * mp + 2) / 5) by reflexivity.
  assert (Hdiv : (yoe + era * 400) / 400 = era) by (Z.div_mod_to_equations; lia).
  clearbody z era doe yoe doy mp q.
  destruct (mp <? 10) eqn:Hlt; [apply Z.ltb_lt in Hlt | apply Z.ltb_ge in Hlt].
  - assert (Hle : (mp + 3 <=? 2) = false) by (apply Z.leb_gt; lia). rewrite Hle.
    split; [lia|]. split.
    + assert (Hc : mp = 0 \/ mp = 1 \/ mp = 2 \/ mp = 3 \/ mp = 4 \/ mp = 5 \/ mp = 6 \/
                   mp = 7 \/ mp = 8 \/ mp = 9) by lia.
      unfold days_in_month.
      destruct Hc as [E|[E|[E|[E|[E|[E|[E|[E|[E|E]]]]]]]]]; subst mp; simpl; lia.
    + unfold days_from_civil. cbv zeta. rewrite Hle.
      replace (mp + 3 >? 2) with true by (symmetry; apply Z.gtb_lt; lia).
      replace (mp + 3 - 3) with mp by ring. rewrite Hdiv.
      replace (yoe + era * 400 - era * 400) with yoe by ring.
      rewrite <- Hq_def. lia.
  - assert (Hle : (mp - 9 <=? 2) = true) by (apply Z.leb_le; lia). rewrite Hle.
    split; [lia|]. split.
    + assert (Hc : mp = 10 \/ mp = 11) by lia. unfold days_in_month.
      destruct Hc as [E|E]; subst mp; simpl; [lia|].
      replace (yoe + era * 400 + 1) with ((yoe + 1) + era * 400) by ring.
      rewrite is_leap_period.
      destruct (is_leap (yoe + 1)) eqn:Hl; [lia|].
      assert (Hdoy : doy <> 365).
      { intros E. pose proof leap_days_check as Hc.
        rewrite forallb_forall in Hc. specialize (Hc yoe).
        assert (Hin : In yoe (map Z.of_nat (seq 0 400))).
        { rewrite <- (Z2Nat.id yoe) by lia. apply in_map, in_seq. lia. }
        specialize (Hc Hin). cbv zeta in Hc.
        replace (365 * yoe + yoe / 4 - yoe / 100 + 365) with doe in Hc by lia.
        rewrite <- Hyoe_def, Z.eqb_refl, Hl in Hc. discriminate. }
      lia.
    + unfold days_from_civil. cbv zeta. rewrite Hle.
      replace (mp - 9 >? 2) with false by (symmetry; rewrite Z.gtb_ltb; apply Z.ltb_ge; lia).
      replace (mp - 9 + 9) with mp by ring.
      replace (yoe + era * 400 + 1 - 1) with (yoe + era * 400) by ring. rewrite Hdiv.
      replace (yoe + era * 400 - era * 400) with yoe by ring.
      rewrite <- Hq_def. lia.
Qed.


Lemma digits_add (n1 n2 : nat) (acc : Z) (s : jsstr) :
  digits (n1 + n2) acc s
  = match digits n1 acc s with Some (a, r) => digits n2 a r | None => None end.
Proof.
  revert acc s. induction n1 as [|k IH]; intros acc s; simpl; [reflexivity|].
  destruct s as [|c r]; [reflexivity|]. destruct (is_digit c); [apply IH | reflexivity].
Qed.

Lemma pad_length (n : nat) (v : Z) : List.length (pad n v) = n.
Proof.
  revert v. induction n as [|k IH]; intros v; simpl; [reflexivity|].
  rewrite length_app, IH. simpl. lia.
Qed.

Lemma digit_char (x : Z) : 0 <= x < 10 ->
  is_digit (Z.to_N (x + 48)) = true /\ digit_val (Z.to_N (x + 48)) = x.
Proof.
  intros H. unfold is_digit, digit_val. rewrite Z2N.id by lia. split; [|lia].
  apply andb_true_iff. split; apply N.leb_le; lia.
Qed.

Lemma digits_pad (n : nat) (v acc : Z) (rest : jsstr) :
  0 <= v < 10 ^ Z.of_nat n ->
  digits n acc (pad n v ++ rest) = Some (acc * 10 ^ Z.of_nat n + v, rest).
Proof.
  revert v acc rest. induction n as [|k IH]; intros v acc rest Hv.
  - simpl in Hv |- *. f_equal. f_equal. lia.
  - simpl pad. rewrite <- app_assoc.
    rewrite Nat2Z.inj_succ, Z.pow_succ_r in * by lia.
    replace (S k) with (k + 1)%nat by lia. rewrite digits_add.
    rewrite IH by (split; [apply Z.div_pos; lia | apply Z.div_lt_upper_bound; lia]).
    destruct (digit_char (v mod 10) ltac:(pose proof (Z.mod_pos_bound v 10); lia)) as [Hd Hv'].
    cbn [digits app]. rewrite Hd, Hv'. f_equal. f_equal.
    pose proof (Z.div_mod v 10 ltac:(lia)) as E.
    remember (v / 10) as a. remember (v mod 10) as b. rewrite E. ring.
Qed.

Lemma digits_pad_nil (n : nat) (v acc : Z) :
  0 <= v < 10 ^ Z.of_nat n -> digits n acc (pad n v) = Some (acc * 10 ^ Z.of_nat n + v, []).
Proof. intros H. rewrite <- (app_nil_r (pad n v)). apply digits_pad, H. Qed.

Lemma firstn_exact {A} (l r : list A) (n : nat) : List.length l = n -> firstn n (l ++ r) = l.
Proof. intros <-. rewrite firstn_app, Nat.sub_diag, firstn_all. simpl. apply app_nil_r. Qed.

Lemma days_in_month_le (y m : Z) : days_in_month y m <= 31.
Proof. unfold days_in_month. destruct (m =? 2); [destruct (is_leap y); lia|]. destruct (_ || _); lia. Qed.

Lemma date_parse_local (tz y m d hh mi : Z) :
  0 <= y <= 9999 -> 1 <= m <= 12 -> 1 <= d <= days_in_month y m -> 0 <= hh <= 23 -> 0 <= mi <= 59 ->
  date_parse tz (pad 4 y ++ 45%N :: pad 2 m ++ 45%N :: pad 2 d ++ 84%N :: pad 2 hh ++ 58%N :: pad 2 mi)
  = time_clip (days_from_civil y m d * ms_per_day + ((hh * 60 + mi) * 60 + 0) * 1000 + 0 + tz * 60000).
Proof.
  intros Hy Hm Hd Hh Hmi. pose proof (days_in_month_le y m).
  unfold date_parse. rewrite digits_pad by (simpl; lia).
  cbv beta iota zeta delta [opt_component]. rewrite digits_pad by (simpl; lia).
  cbv beta iota zeta. rewrite digits_pad by (simpl; lia).
  cbv beta iota zeta. rewrite !Z.mul_0_l, !Z.add_0_l.
  assert (Hc : (1 <=? m) && (m <=? 12) && (1 <=? d) && (d <=? days_in_month y m) = true)
    by (rewrite !andb_true_iff; repeat split; apply Z.leb_le; lia).
  rewrite Hc. cbv beta iota zeta. rewrite digits_pad by (simpl; lia).
  cbv beta iota zeta. rewrite digits_pad_nil by (simpl; lia).
  cbv beta iota zeta delta [opt_seconds opt_zone]. rewrite !Z.mul_0_l, !Z.add_0_l.
  assert (Ht : (hh <=? 24) && (mi <=? 59) && (0 <=? 59) && (negb (hh =? 24) || (mi =? 0) && (0 =? 0) && (0 =? 0)) = true).
  { replace (hh =? 24) with false by (symmetry; apply Z.eqb_neq; lia).
    rewrite !andb_true_iff; repeat split; try reflexivity; apply Z.leb_le; lia. }
  rewrite Ht. reflexivity.
Qed.


Lemma time_clip_bound (x t : Z) : time_clip x = Some t -> t = x /\ Z.abs x <= 8640000000000000.
Proof.
  unfold time_clip. destruct (Z.abs x <=? 8640000000000000) eqn:E; [|discriminate].
  intros H. injection H as <-. split; [reflexivity | apply Z.leb_le, E].
Qed.

(** Every time value [Date.parse] produces is within the [TimeClip] range. *)
Lemma date_parse_bound (tz : Z) (s : jsstr) (t : Z) :
  date_parse tz s = Some t -> Z.abs t <= 8640000000000000.
Proof.
  unfold date_parse. intros H.
  repeat match type of H with
  | time_clip _ = Some _ => apply time_clip_bound in H; destruct H as [-> H]; exact H
  | context [match ?x with _ => _ end] => destruct x; try discriminate H
  end.
Qed.

Lemma days_from_civil_range (y m d : Z) :
  0 <= y <= 9999 -> 1 <= m <= 12 -> 1 <= d <= 31 ->
  -800000 <= days_from_civil y m d <= 3000000.
Proof.
  intros Hy Hm Hd. unfold days_from_civil. cbv zeta.
  destruct (m <=? 2), (m >? 2); Z.div_mod_to_equations; lia.
Qed.

Lemma to_iso_string_parts (L y m d : Z) :
  civil_from_days (L / ms_per_day) = (y, m, d) -> 0 <= y <= 9999 ->
  to_iso_string (Some L)
  = Some ((pad 4 y ++ 45%N :: pad 2 m ++ 45%N :: pad 2 d ++ 84%N
           :: pad 2 (L mod ms_per_day / 3600000) ++ 58%N :: pad 2 ((L mod ms_per_day / 60000) mod 60))
          ++ 58%N :: pad 2 ((L mod ms_per_day / 1000) mod 60) ++ 46%N
          :: pad 3 (L mod ms_per_day mod 1000) ++ [90%N]).
Proof.
  intros H Hy. unfold to_iso_string. cbv zeta. rewrite H.
  replace ((0 <=? y) && (y <=? 9999)) with true by (symmetry; rewrite andb_true_iff; split; apply Z.leb_le; lia).
  rewrite <- !app_assoc. reflexivity.
Qed.

Lemma local_minute (L : Z) :
  L / ms_per_day * ms_per_day
  + ((L mod ms_per_day / 3600000 * 60 + (L mod ms_per_day / 60000) mod 60) * 60 + 0) * 1000 + 0
  = L - L mod 60000.
Proof. unfold ms_per_day. Z.div_mod_to_equations. lia. Qed.


Lemma formatForInput_local (tz : Z) (s : jsstr) (t0 y m d : Z) :
  date_parse tz (if zone_regex_test s then s else s ++ js "Z") = Some t0 ->
  civil_from_days ((t0 - tz * 60000) / ms_per_day) = (y, m, d) -> 0 <= y <= 9999 ->
  Form.formatForInput tz (Some s)
  = pad 4 y ++ 45%N :: pad 2 m ++ 45%N :: pad 2 d ++ 84%N
      :: pad 2 ((t0 - tz * 60000) mod ms_per_day / 3600000) ++ 58%N
      :: pad 2 (((t0 - tz * 60000) mod ms_per_day / 60000) mod 60).
Proof.
  intros Hp Hc Hy.
  destruct s as [|c r]; [vm_compute in Hp; discriminate|].
  pose proof (civil_from_days_spec ((t0 - tz * 60000) / ms_per_day)) as Hs.
  rewrite Hc in Hs. destruct Hs as [Hm [Hd Hinv]].
  pose proof (days_in_month_le y m).
  pose proof (days_from_civil_range y m d Hy Hm ltac:(lia)) as Hr.
  rewrite Hinv in Hr.
  assert (Hclip : time_clip (t0 - tz * 60000) = Some (t0 - tz * 60000)).
  { unfold time_clip. replace (Z.abs (t0 - tz * 60000) <=? 8640000000000000) with true; [reflexivity|].
    symmetry. apply Z.leb_le. unfold ms_per_day in Hr. Z.div_mod_to_equations. lia. }
  unfold Form.formatForInput. cbv beta iota zeta. rewrite Hp, Hclip.
  rewrite (to_iso_string_parts _ y m d Hc Hy).
  apply firstn_exact.
  do 5 (rewrite ?length_app; cbn [length]); rewrite !pad_length; reflexivity.
Qed.

(** [formatForInput] after the engine re-reads its output as local time:
    [tz0] is the offset it renders with (the one at the stored instant) and
    [tz1] the offset the engine applies to the rendered wall-clock time. *)
Lemma formatForInput_reparse (tz0 tz1 : Z) (s : jsstr) (t0 y m d : Z) :
  date_parse tz0 (if zone_regex_test s then s else s ++ js "Z") = Some t0 ->
  civil_from_days ((t0 - tz0 * 60000) / ms_per_day) = (y, m, d) -> 0 <= y <= 9999 ->
  Z.abs tz1 <= 1440 ->
  Form.formatForInput tz0 (Some s) <> [] /\
  date_parse tz1 (Form.formatForInput tz0 (Some s))
  = Some (t0 - t0 mod 60000 + (tz1 - tz0) * 60000).
Proof.
  intros Hp Hc Hy Htz.
  pose proof (civil_from_days_spec ((t0 - tz0 * 60000) / ms_per_day)) as Hs.
  rewrite Hc in Hs. destruct Hs as [Hm [Hd Hinv]].
  pose proof (days_in_month_le y m).
  pose proof (days_from_civil_range y m d Hy Hm ltac:(lia)) as Hr.
  rewrite Hinv in Hr.
  rewrite (formatForInput_local tz0 s t0 y m d Hp Hc Hy).
  split; [destruct (pad 4 y); [discriminate | discriminate]|].
  rewrite date_parse_local by (try lia; unfold ms_per_day; Z.div_mod_to_equations; lia).
  rewrite Hinv, local_minute.
  unfold time_clip. replace (Z.abs (t0 - tz0 * 60000 - (t0 - tz0 * 60000) mod 60000 + tz1 * 60000)
                             <=? 8640000000000000) with true.
  - f_equal. Z.div_mod_to_equations. lia.
  - symmetry. apply Z.leb_le. unfold ms_per_day in Hr. Z.div_mod_to_equations. lia.
Qed.

(** [formatForInput] renders a parseable stored date as the wall-clock minute
    of its instant at the local offset [tz], in the [YYYY-MM-DDTHH:mm] form a
    [datetime-local] input takes: a real calendar date, an hour of 0..23 and a
    minute of 0..59 whose local time value is the instant's local time with
    seconds and milliseconds dropped. (Years outside 0..9999 leave the
    four-digit form of [toISOString].) *)
Theorem formatForInput_local_minute (tz : Z) (s : jsstr) (t0 : Z) :
  date_parse tz (if zone_regex_test s then s else s ++ js "Z") = Some t0 ->
  0 <= fst (fst (civil_from_days ((t0 - tz * 60000) / ms_per_day))) <= 9999 ->
  exists y m d hh mi,
    Form.formatForInput tz (Some s)
    = pad 4 y ++ 45%N :: pad 2 m ++ 45%N :: pad 2 d ++ 84%N :: pad 2 hh ++ 58%N :: pad 2 mi /\
    0 <= y <= 9999 /\ 1 <= m <= 12 /\ 1 <= d <= days_in_month y m /\
    0 <= hh <= 23 /\ 0 <= mi <= 59 /\
    days_from_civil y m d * ms_per_day + (hh * 60 + mi) * 60000
    = t0 - tz * 60000 - (t0 - tz * 60000) mod 60000.
Proof.
  intros Hp Hy.
  destruct (civil_from_days ((t0 - tz * 60000) / ms_per_day)) as [[y m] d] eqn:Hc. simpl in Hy.
  pose proof (civil_from_days_spec ((t0 - tz * 60000) / ms_per_day)) as Hs.
  rewrite Hc in Hs. destruct Hs as [Hm [Hd Hinv]].
  exists y, m, d, ((t0 - tz * 60000) mod ms_per_day / 3600000),
         (((t0 - tz * 60000) mod ms_per_day / 60000) mod 60).
  split; [exact (formatForInput_local tz s t0 y m d Hp Hc Hy)|].
  split; [exact Hy|]. split; [exact Hm|]. split; [exact Hd|].
  split; [unfold ms_per_day; Z.div_mod_to_equations; lia|].
  split; [Z.div_mod_to_equations; lia|].
  rewrite Hinv. pose proof (local_minute (t0 - tz * 60000)) as E. rewrite <- E. ring.
Qed.

(** Opening a task in the edit form and saving it without touching the due
    date sends back the stored instant truncated to the minute and shifted by
    the difference of two local offsets: [tz0], the offset at the stored
    instant that [formatForInput] renders with, and [tz1], the offset the
    engine applies when [new Date] reads the rendered wall-clock time back.
    They differ only across a daylight-saving change; when they agree the
    instant comes back exact to the minute. (Stored strings are read as
    [formatForInput] reads them; years outside 0..9999 leave the four-digit
    form of [toISOString].) *)
Theorem edit_resubmit_due_date_shift (tz0 tz1 : Z) (tk : Task) (s : jsstr) (t0 : Z) :
  due_date tk = Some s ->
  date_parse tz0 (if zone_regex_test s then s else s ++ js "Z") = Some t0 ->
  0 <= fst (fst (civil_from_days ((t0 - tz0 * 60000) / ms_per_day))) <= 9999 ->
  Z.abs tz1 <= 1440 ->
  trim (title tk) <> [] ->
  exists d, fst (Form.handleSubmit tz1 true (Form.fill tz0 tk)) = Form.FSubmitted d /\
            tc_due_date d = to_iso_string (Some (t0 - t0 mod 60000 + (tz1 - tz0) * 60000)).
Proof.
  intros Hdue Hp Hy Htz Ht.
  destruct (civil_from_days ((t0 - tz0 * 60000) / ms_per_day)) as [[y m] d] eqn:Hc. simpl in Hy.
  destruct (formatForInput_reparse tz0 tz1 s t0 y m d Hp Hc Hy Htz) as [Hne Hre].
  unfold Form.handleSubmit, Form.fill.
  cbn [Form.ftitle Form.fdescription Form.fdue_date Form.fpriority].
  replace (or_str (Some (title tk)) []) with (title tk) by (destruct (title tk); reflexivity).
  destruct (jsstr_eqb (trim (title tk)) []) eqn:E; [apply FormMore.jsstr_eqb_nil in E; contradiction|].
  rewrite Hdue. destruct (Form.formatForInput tz0 (Some s)) as [|c r]; [contradiction|].
  rewrite Hre. cbn. eexists. split; reflexivity.
Qed.

End DateFacts.

(** ** What UI events and settlements may change *)
Module EventFacts.
Import App Inflight.

(** The page makes no optimistic update and no follow-up request: a UI event
    or the mount effect never changes the task collection, and the settlement
    of a request never puts a new request on the wire. *)
Theorem collection_changes_only_on_settlement (tz : Z) (w : World) (e : Event) :
  (settles e = false -> tasks (sess (step tz w e)) = tasks (sess w)) /\
  (settles e = true -> sent (step tz w e) = sent w).
Proof.
  destruct w as [s pw sw]. split; intros Hs.
  - destruct e as [| f | text | tid | tid c | r | | | | k y]; simpl in *; try discriminate Hs.
    + destruct s; reflexivity.
    + destruct (editingTask s) as [e|] eqn:He;
        destruct (fst (Form.handleSubmit tz _ f)); simpl; try reflexivity;
        unfold handleUpdateTask; rewrite ?He; destruct s; reflexivity.
    + destruct (negb (jsstr_eqb (trim text) []) && negb (isProcessingNL s)); [|reflexivity].
      destruct s; reflexivity.
    + unfold handleToggleTask. destruct (find _ (tasks s)); destruct s; reflexivity.
    + unfold handleDeleteTask. destruct c; destruct s; reflexivity.
    + destruct (find _ (tasks s)); [destruct s|]; reflexivity.
    + destruct s; reflexivity.
    + destruct s; reflexivity.
    + destruct s; reflexivity.
  - destruct e; try discriminate Hs. simpl.
    destruct (nth_error pw k); [|reflexivity]. destruct (resume s p y); reflexivity.
Qed.

(** The natural-language input sends nothing for a blank text or while a
    request of its own is being processed; otherwise it sends the trimmed
    text, which is non-empty and neither starts nor ends with whitespace. *)
Theorem nl_submit_guard (tz : Z) (w : World) (text : jsstr) :
  ((forallb is_js_ws text = true \/ isProcessingNL (sess w) = true) ->
   step tz w (ESubmitNL text) = w) /\
  (forallb is_js_ws text = false -> isProcessingNL (sess w) = false ->
   sent (step tz w (ESubmitNL text)) = sent w ++ [RParse (trim text)] /\ trim text <> [] /\
   (forall c, hd_error (trim text) = Some c -> is_js_ws c = false) /\
   (forall c, hd_error (rev (trim text)) = Some c -> is_js_ws c = false)).
Proof.
  split.
  - intros [H|H]; simpl.
    + rewrite (AppFacts.all_ws_trim _ H). reflexivity.
    + rewrite H, andb_false_r. reflexivity.
  - intros Hw Hp. simpl.
    assert (Hne : trim text <> []) by (intros E; apply TrimFacts.trim_nil_all_ws in E; congruence).
    destruct (jsstr_eqb (trim text) []) eqn:E; [apply FormMore.jsstr_eqb_nil in E; contradiction|].
    rewrite Hp. simpl.
    destruct (TrimFacts.trim_shape text) as [p [q [_ [_ [_ [H1 H2]]]]]].
    split; [reflexivity|]. split; [exact Hne|]. split; assumption.
Qed.

End EventFacts.

(** ** Instances of the further properties *)
Module ExtraWitnesses.
Import App Samples Inflight.

Lemma trim_strips_whitespace_witness :
  trim [32; 97; 32; 98; 9]%N = [97; 32; 98]%N /\ is_js_ws 97 = false /\ is_js_ws 98 = false.
Proof.
  destruct (TrimFacts.trim_strips_whitespace [32; 97; 32; 98; 9]%N) as [p [q [_ [_ [_ [H1 H2]]]]]].
  assert (E : trim [32; 97; 32; 98; 9]%N = [97; 32; 98]%N) by (vm_compute; reflexivity).
  split; [exact E|]. rewrite E in H1, H2.
  split; [exact (H1 97%N eq_refl) | exact (H2 98%N eq_refl)].
Defined.

Lemma loading_flag_tracks_load_witness :
  forallb (fun e => negb (is_mount e)) [EResolve 1 (YHealth TNetworkFailure)] = true /\
  count_pending is_pload (pending (run 0 world_init [EMount; EResolve 1 (YHealth TNetworkFailure)]))
  = if isLoading (sess (run 0 world_init [EMount; EResolve 1 (YHealth TNetworkFailure)]))
    then 1%nat else 0%nat.
Proof.
  assert (H : forallb (fun e => negb (is_mount e)) [EResolve 1 (YHealth TNetworkFailure)] = true)
    by reflexivity.
  split; [exact H|]. exact (InflightFacts.loading_flag_tracks_load 0 _ H).
Defined.

Lemma issuing_event_clears_error_witness :
  let w := run 0 world_init [EMount; EResolve 0 (YTasks TNetworkFailure)] in
  error (sess w) = Some msg_load /\
  settles (ESubmitNL (js "Call mom")) = false /\
  List.length (sent (step 0 w (ESubmitNL (js "Call mom")))) <> List.length (sent w) /\
  error (sess (step 0 w (ESubmitNL (js "Call mom")))) = None.
Proof.
  cbv zeta.
  assert (H2 : List.length (sent (step 0 (run 0 world_init [EMount; EResolve 0 (YTasks TNetworkFailure)])
                                   (ESubmitNL (js "Call mom"))))
               <> List.length (sent (run 0 world_init [EMount; EResolve 0 (YTasks TNetworkFailure)])))
    by (vm_compute; discriminate).
  split; [vm_compute; reflexivity|]. split; [reflexivity|]. split; [exact H2|].
  exact (InflightFacts.issuing_event_clears_error 0 _ (ESubmitNL (js "Call mom")) eq_refl H2).
Defined.

Lemma mount_load_settles_witness :
  pending world_init = [] /\
  map oval (tasks (sess (step 0 (step 0 world_init EMount) (EResolve 0 (YTasks (TResponse 200 [t5; t7]))))))
  = [t5; t7].
Proof.
  assert (H : pending world_init = []) by reflexivity.
  split; [exact H|].
  destruct (IsolatedFacts.mount_load_settles 0 world_init (TResponse 200 [t5; t7]) H)
    as [_ [_ [_ [Hv _]]]].
  exact Hv.
Defined.

Lemma toggle_in_isolation_witness :
  find (fun t => id (oval t) =? 42) (tasks (sess w_idle)) = None /\
  step 0 w_idle (EToggle 42) = w_idle /\
  find (fun t => id (oval t) =? 5) (tasks (sess w_idle)) = Some (mkObj 0 t5) /\
  pending w_idle = [] /\ axios (TResponse 200 t5_done) = Resolved t5_done /\
  sent (step 0 w_idle (EToggle 5))
  = sent w_idle ++ [RUpdate 5 (mkTaskUpdate None None (Some true) None None)].
Proof.
  assert (H1 : find (fun t => id (oval t) =? 42) (tasks (sess w_idle)) = None) by (vm_compute; reflexivity).
  assert (H2 : find (fun t => id (oval t) =? 5) (tasks (sess w_idle)) = Some (mkObj 0 t5))
    by (vm_compute; reflexivity).
  assert (H3 : pending w_idle = []) by (vm_compute; reflexivity).
  split; [exact H1|]. split; [exact (proj1 (IsolatedFacts.toggle_in_isolation 0 w_idle 42) H1)|].
  split; [exact H2|]. split; [exact H3|]. split; [reflexivity|].
  exact (proj1 (proj2 (IsolatedFacts.toggle_in_isolation 0 w_idle 5) (mkObj 0 t5) (TResponse 200 t5_done)
                  t5_done H2 H3 eq_refl)).
Defined.

Lemma delete_in_isolation_witness :
  pending w_idle = [] /\ axios (TResponse 204 tt) = Resolved tt /\
  tasks (sess (step 0 (step 0 w_idle (EDelete 5 true)) (EResolve 0 (YVoid (TResponse 204 tt)))))
  = filter (fun o => negb (id (oval o) =? 5)) (tasks (sess w_idle)).
Proof.
  assert (H : pending w_idle = []) by (vm_compute; reflexivity).
  split; [exact H|]. split; [reflexivity|].
  destruct (proj2 (IsolatedFacts.delete_in_isolation 0 w_idle 5) (TResponse 204 tt) H eq_refl)
    as [_ [_ [_ Ht]]].
  exact Ht.
Defined.

Lemma create_in_isolation_witness :
  pending w_idle = [] /\ editingTask (sess w_idle) = None /\
  Form.handleSubmit 0 false (Form.mkForm (js " Call mom ") [] [] (js "medium"))
  = (Form.FSubmitted (mkTaskCreate (js "Call mom") None None (Some (js "medium"))), Form.form_init) /\
  axios (TResponse 201 t_nl) = Resolved t_nl /\
  sent (step 0 (step 0 w_idle (ESubmitForm (Form.mkForm (js " Call mom ") [] [] (js "medium"))))
          (EResolve 0 (YTask (TResponse 201 t_nl))))
  = sent w_idle ++ [RCreate (mkTaskCreate (js "Call mom") None None (Some (js "medium")))].
Proof.
  assert (H1 : pending w_idle = []) by (vm_compute; reflexivity).
  assert (H2 : editingTask (sess w_idle) = None) by (vm_compute; reflexivity).
  assert (H3 : Form.handleSubmit 0 false (Form.mkForm (js " Call mom ") [] [] (js "medium"))
               = (Form.FSubmitted (mkTaskCreate (js "Call mom") None None (Some (js "medium"))),
                  Form.form_init)) by (vm_compute; reflexivity).
  split; [exact H1|]. split; [exact H2|]. split; [exact H3|]. split; [reflexivity|].
  exact (proj1 (IsolatedFacts.create_in_isolation 0 w_idle _ _ _ (TResponse 201 t_nl) t_nl
                  H1 H2 H3 eq_refl)).
Defined.

Lemma edit_save_in_isolation_witness :
  pending (step 0 w_idle (EEdit 0)) = [] /\
  editingTask (sess (step 0 w_idle (EEdit 0))) = Some (mkObj 0 t5) /\
  Form.handleSubmit 0 true (Form.mkForm (js "Write report") [] [] (js "high"))
  = (Form.FSubmitted (mkTaskCreate (js "Write report") None None (Some (js "high"))),
     Form.mkForm (js "Write report") [] [] (js "high")) /\
  axios (TResponse 200 t5) = Resolved t5 /\
  editingTask (sess (step 0 (step 0 (step 0 w_idle (EEdit 0))
                               (ESubmitForm (Form.mkForm (js "Write report") [] [] (js "high"))))
                       (EResolve 0 (YTask (TResponse 200 t5))))) = None.
Proof.
  assert (H1 : pending (step 0 w_idle (EEdit 0)) = []) by (vm_compute; reflexivity).
  assert (H2 : editingTask (sess (step 0 w_idle (EEdit 0))) = Some (mkObj 0 t5)) by (vm_compute; reflexivity).
  assert (H3 : Form.handleSubmit 0 true (Form.mkForm (js "Write report") [] [] (js "high"))
               = (Form.FSubmitted (mkTaskCreate (js "Write report") None None (Some (js "high"))),
                  Form.mkForm (js "Write report") [] [] (js "high"))) by (vm_compute; reflexivity).
  split; [exact H1|]. split; [exact H2|]. split; [exact H3|]. split; [reflexivity|].
  destruct (IsolatedFacts.edit_save_in_isolation 0 _ _ _ _ _ (TResponse 200 t5) t5 H1 H2 H3 eq_refl)
    as [_ [_ [_ [He _]]]].
  exact He.
Defined.

Lemma formatForInput_local_minute_witness :
  date_parse 300 (if zone_regex_test (js "2024-05-01T14:30:45") then js "2024-05-01T14:30:45"
                  else js "2024-05-01T14:30:45" ++ js "Z") = Some 1714573845000 /\
  Form.formatForInput 300 (Some (js "2024-05-01T14:30:45")) = js "2024-05-01T09:30" /\
  exists y m d hh mi,
    Form.formatForInput 300 (Some (js "2024-05-01T14:30:45"))
    = pad 4 y ++ 45%N :: pad 2 m ++ 45%N :: pad 2 d ++ 84%N :: pad 2 hh ++ 58%N :: pad 2 mi /\
    0 <= y <= 9999 /\ 1 <= m <= 12 /\ 1 <= d <= days_in_month y m /\
    0 <= hh <= 23 /\ 0 <= mi <= 59 /\
    days_from_civil y m d * ms_per_day + (hh * 60 + mi) * 60000
    = 1714573845000 - 300 * 60000 - (1714573845000 - 300 * 60000) mod 60000.
Proof.
  assert (H1 : date_parse 300 (if zone_regex_test (js "2024-05-01T14:30:45") then js "2024-05-01T14:30:45"
                               else js "2024-05-01T14:30:45" ++ js "Z") = Some 1714573845000)
    by (vm_compute; reflexivity).
  assert (E : fst (fst (civil_from_days ((1714573845000 - 300 * 60000) / ms_per_day))) = 2024)
    by (vm_compute; reflexivity).
  assert (H2 : 0 <= fst (fst (civil_from_days ((1714573845000 - 300 * 60000) / ms_per_day))) <= 9999)
    by (rewrite E; lia).
  split; [exact H1|]. split; [vm_compute; reflexivity|].
  exact (DateFacts.formatForInput_local_minute 300 (js "2024-05-01T14:30:45") 1714573845000 H1 H2).
Defined.

Lemma edit_resubmit_due_date_shift_witness :
  Form.formatForInput 300 (Some (js "2024-11-03T06:30:00Z")) = js "2024-11-03T01:30" /\
  to_iso_string (Some (1730615400000 - 1730615400000 mod 60000 + (240 - 300) * 60000))
  = Some (js "2024-11-03T05:30:00.000Z") /\
  exists d,
    fst (Form.handleSubmit 240 true
           (Form.fill 300 (mkTask 5 (js "Write report") None false
                                  (Some (js "2024-11-03T06:30:00Z")) None 1000 1000)))
    = Form.FSubmitted d /\
    tc_due_date d = to_iso_string (Some (1730615400000 - 1730615400000 mod 60000 + (240 - 300) * 60000)).
Proof.
  split; [vm_compute; reflexivity|]. split; [vm_compute; reflexivity|].
  assert (H2 : date_parse 300 (if zone_regex_test (js "2024-11-03T06:30:00Z")
                               then js "2024-11-03T06:30:00Z" else js "2024-11-03T06:30:00Z" ++ js "Z")
               = Some 1730615400000) by (vm_compute; reflexivity).
  assert (E : fst (fst (civil_from_days ((1730615400000 - 300 * 60000) / ms_per_day))) = 2024)
    by (vm_compute; reflexivity).
  assert (H3 : 0 <= fst (fst (civil_from_days ((1730615400000 - 300 * 60000) / ms_per_day))) <= 9999)
    by (rewrite E; lia).
  assert (H4 : Z.abs 240 <= 1440) by (vm_compute; discriminate).
  assert (H5 : trim (js "Write report") <> []) by (intros H; vm_compute in H; discriminate H).
  exact (DateFacts.edit_resubmit_due_date_shift 300 240
           (mkTask 5 (js "Write report") None false (Some (js "2024-11-03T06:30:00Z")) None 1000 1000)
           (js "2024-11-03T06:30:00Z") 1730615400000 eq_refl H2 H3 H4 H5).
Defined.

Lemma collection_changes_only_on_settlement_witness :
  settles (EToggle 5) = false /\
  tasks (sess (step 0 w_idle (EToggle 5))) = tasks (sess w_idle) /\
  settles (EResolve 0 (YTask (TResponse 200 t5_done))) = true /\
  sent (step 0 (step 0 w_idle (EToggle 5)) (EResolve 0 (YTask (TResponse 200 t5_done))))
  = sent (step 0 w_idle (EToggle 5)).
Proof.
  split; [reflexivity|].
  split; [exact (proj1 (EventFacts.collection_changes_only_on_settlement 0 w_idle (EToggle 5)) eq_refl)|].
  split; [reflexivity|].
  exact (proj2 (EventFacts.collection_changes_only_on_settlement 0 (step 0 w_idle (EToggle 5))
                  (EResolve 0 (YTask (TResponse 200 t5_done)))) eq_refl).
Defined.

Lemma nl_submit_guard_witness :
  step 0 w_idle (ESubmitNL [32; 12288]%N) = w_idle /\
  forallb is_js_ws (js " Call mom ") = false /\ isProcessingNL (sess w_idle) = false /\
  sent (step 0 w_idle (ESubmitNL (js " Call mom "))) = sent w_idle ++ [RParse (trim (js " Call mom "))].
Proof.
  assert (H0 : forallb is_js_ws [32; 12288]%N = true \/ isProcessingNL (sess w_idle) = true)
    by (left; reflexivity).
  assert (H1 : forallb is_js_ws (js " Call mom ") = false) by reflexivity.
  assert (H2 : isProcessingNL (sess w_idle) = false) by (vm_compute; reflexivity).
  split; [exact (proj1 (EventFacts.nl_submit_guard 0 w_idle [32; 12288]%N) H0)|].
  split; [exact H1|]. split; [exact H2|].
  exact (proj1 (proj2 (EventFacts.nl_submit_guard 0 w_idle (js " Call mom ")) H1 H2)).
Defined.

End ExtraWitnesses.
